(** * Smart Librarian front end: session, conversation and turn exchange

    A shallow embedding of the client-side protocol code of the Smart
    Librarian single-page application:

    - [api/auth.js]: [register], [login], [me], [logout]
      (source file [unnamed/part_000], lines 43-63);
    - [api/chat.js]: [sendChat];
    - [auth/AuthContext.jsx]: [AuthProvider], [refresh]
      (source file [unnamed/part_002]);
    - [auth/ProtectedRoute.jsx]: [ProtectedRoute]
      (source file [unnamed/part_001]);
    - [components/MessageInput.jsx]: [MessageInput], [handleSend];
    - [pages/Chat.jsx]: [ChatPage], [onSend], the identity probe;
    - [pages/Login.jsx]: [LoginPage], [onSubmit], the session probe;
    - [pages/Register.jsx]: [RegisterPage], [handleChange], [onSubmit];
    - [components/Navbar.jsx]: [onLogout].

    JavaScript values are a small tagged union, strings are sequences of
    UTF-16 code units, React state and [localStorage] are threaded
    explicitly through a state-and-exception monad, and every [async]
    function is cut at its [await]: [f_send] is the part that runs up to
    the request being awaited, [f_then] the part that runs once it has
    settled.  Requests in flight are kept with the function parked on
    them, and user actions and settlements are the events of a small
    event loop. *)

From Stdlib Require Import ZArith List Bool Ascii String DecimalString Lia.
From stdpp Require Import base option list gmap strings.

Local Open Scope list_scope.
Local Open Scope Z_scope.

(* ===================================================================== *)
(** * JavaScript values                                                   *)
(* ===================================================================== *)

Module Js.

(** A JavaScript string: its UTF-16 code units. *)
Definition JsString := list N.

(** An ASCII literal of the source as code units. *)
Fixpoint lit (s : string) : JsString :=
  match s with
  | EmptyString => []
  | String a rest => N_of_ascii a :: lit rest
  end.

(** ECMAScript [WhiteSpace] and [LineTerminator] code points, the ones
    [String.prototype.trim] strips. *)
Definition isWhiteSpace (c : N) : bool :=
  ((c =? 0x09) || (c =? 0x0A) || (c =? 0x0B) || (c =? 0x0C) || (c =? 0x0D)
   || (c =? 0x20) || (c =? 0xA0) || (c =? 0x1680)
   || ((0x2000 <=? c) && (c <=? 0x200A))
   || (c =? 0x2028) || (c =? 0x2029) || (c =? 0x202F) || (c =? 0x205F)
   || (c =? 0x3000) || (c =? 0xFEFF))%N.

Fixpoint trimStart (s : JsString) : JsString :=
  match s with
  | [] => []
  | c :: rest => if isWhiteSpace c then trimStart rest else s
  end.

Fixpoint trimEnd (s : JsString) : JsString :=
  match s with
  | [] => []
  | c :: rest =>
      match trimEnd rest with
      | [] => if isWhiteSpace c then [] else [c]
      | kept => c :: kept
      end
  end.

(** [s.trim()] *)
Definition trim (s : JsString) : JsString := trimEnd (trimStart s).

(** The values that flow through the client: JSON data from the backend,
    [undefined], and error objects.  Numbers are the integer-valued ones
    (conversation identifiers are documented as [string|number]). *)
#[warnings="-register-all"]
Inductive JsVal : Type :=
| JUndefined
| JNull
| JBool (b : bool)
| JNum (n : Z)
| JStr (s : JsString)
| JArr (elems : list JsVal)
| JObj (props : list (string * JsVal)).

(** [ToBoolean]: what [if (v)], [!v], [a || b] and [c ? x : y] test. *)
Definition truthy (v : JsVal) : bool :=
  match v with
  | JUndefined | JNull => false
  | JBool b => b
  | JNum n => negb (n =? 0)
  | JStr s => match s with [] => false | _ => true end
  | JArr _ | JObj _ => true
  end.

Definition nullish (v : JsVal) : bool :=
  match v with
  | JUndefined | JNull => true
  | _ => false
  end.

(** [a || b] *)
Definition or_else (a b : JsVal) : JsVal := if truthy a then a else b.

(** [ToString], as applied by template literals and by [Storage.setItem].
    An array joins its elements with commas, printing [null] and
    [undefined] elements as the empty string; a plain object prints as
    [[object Object]].  The function gives JavaScript's string on the
    values singled out by [prints_faithfully] below: a number is printed
    as its decimal numeral, which is what JavaScript prints for the safe
    integers only, and an object carrying a [toString] property of its
    own has no string form in JavaScript (the conversion throws). *)
Fixpoint ToString (v : JsVal) : JsString :=
  match v with
  | JUndefined => lit "undefined"
  | JNull => lit "null"
  | JBool true => lit "true"
  | JBool false => lit "false"
  | JNum n => lit (NilZero.string_of_int (Z.to_int n))
  | JStr s => s
  | JArr elems =>
      (fix join (l : list JsVal) : JsString :=
         match l with
         | [] => []
         | x :: rest =>
             (if nullish x then [] else ToString x)
               ++ match rest with
                  | [] => []
                  | _ => lit "," ++ join rest
                  end
         end) elems
  | JObj _ => lit "[object Object]"
  end.

(** [Number.isSafeInteger]: the integers up to [2^53 - 1] in absolute
    value, which a number holds exactly. *)
Definition safe_integer (n : Z) : bool := Z.abs n <=? 2 ^ 53 - 1.

(** An object literal or parsed object has a property of its own named
    [p]. *)
Definition has_own (props : list (string * JsVal)) (p : string) : bool :=
  existsb (fun kv => String.eqb (fst kv) p) props.

(** The values on which [ToString] is JavaScript's conversion: strings,
    booleans, [null], [undefined], safe integers, plain objects without a
    [toString] of their own, and arrays of such values. *)
Fixpoint prints_faithfully (v : JsVal) : bool :=
  match v with
  | JNum n => safe_integer n
  | JArr elems =>
      (fix all (l : list JsVal) : bool :=
         match l with
         | [] => true
         | x :: rest => prints_faithfully x && all rest
         end) elems
  | JObj props => negb (has_own props "toString")
  | _ => true
  end.

(** Own-property lookup in an object literal / parsed JSON object. *)
Fixpoint obj_get (props : list (string * JsVal)) (p : string) : JsVal :=
  match props with
  | [] => JUndefined
  | (k, v) :: rest => if String.eqb k p then v else obj_get rest p
  end.

Fixpoint obj_set (props : list (string * JsVal)) (p : string) (v : JsVal)
  : list (string * JsVal) :=
  match props with
  | [] => [(p, v)]
  | (k, old) :: rest =>
      if String.eqb k p then (k, v) :: rest else (k, old) :: obj_set rest p v
  end.

(** [{ ...base, ...extra }]: the properties of [extra] are written over
    [base] in order. *)
Definition spread (base extra : list (string * JsVal)) : list (string * JsVal) :=
  fold_left (fun acc kv => obj_set acc (fst kv) (snd kv)) extra base.

(** Completion of a piece of code: a value, or a thrown exception. *)
Inductive Result (A : Type) : Type :=
| Ok (a : A)
| Thrown (e : JsVal).
Arguments Ok {A} a.
Arguments Thrown {A} e.

(** [new Error(msg)]: an object whose [message] is [msg]. *)
Definition Error (msg : JsString) : JsVal := JObj [("message"%string, JStr msg)].

(** The [TypeError] raised by reading a property of [null] or
    [undefined].  The wording of its message is the engine's (here V8's);
    no statement below depends on it. *)
Definition TypeError_read (v : JsVal) (p : string) : JsVal :=
  Error (lit "Cannot read properties of " ++ ToString v
           ++ lit " (reading '" ++ lit p ++ lit "')").

Definition TypeError_not_a_function (what : string) : JsVal :=
  Error (lit what ++ lit " is not a function").

(** [v.p] for a data property [p]: throws on [null]/[undefined], reads the
    own property of an object, and is [undefined] on the other values
    (none of the names read by the client is a built-in property of a
    primitive or of an array). *)
Definition GetV (v : JsVal) (p : string) : Result JsVal :=
  match v with
  | JUndefined | JNull => Thrown (TypeError_read v p)
  | JObj props => Ok (obj_get props p)
  | _ => Ok JUndefined
  end.

(** [v?.p] *)
Definition opt_chain (v : JsVal) (p : string) : JsVal :=
  match GetV v p with
  | Ok x => x
  | Thrown _ => JUndefined
  end.

End Js.
Export Js.

(* ===================================================================== *)
(** * Client state                                                        *)
(* ===================================================================== *)

(** [Message]: an entry of the transcript, [{ role, content }]. *)
Inductive Role : Type := user_role | assistant_role.

Record Message : Type := { role : Role; content : JsVal }.

(** [AuthContext.jsx], lines 16-17: the two [useState] cells of
    [AuthProvider]. *)
Module AuthProvider.
Record State : Type := { user : JsVal; loading : bool }.
Definition init : State := {| user := JNull; loading := true |}.
End AuthProvider.

(** [Chat.jsx], lines 9-13: the three [useState] cells of [ChatPage]. *)
Module ChatPage.
Record State : Type := { convId : JsVal; msgs : list Message; loading : bool }.

Definition greeting : JsString :=
  lit "Hey! Tell me what kind of book you want " ++ [0xD83D; 0xDCDA; 0x2728]%N.

Definition init : State :=
  {| convId := JUndefined;
     msgs := [ {| role := assistant_role; content := JStr greeting |} ];
     loading := false |}.
End ChatPage.

Inductive Method : Type := GET | POST.

(** A request handed to the HTTP client, with the bearer credential it
    carries.  (The fixed [Content-Type] header of [sendChat] is left out.) *)
Record Request : Type :=
  { rq_method : Method;
    rq_url : string;
    rq_body : JsVal;
    rq_bearer : option JsString }.

(** How a request settles: the promise is fulfilled with the client's
    response object [{ data, ... }], or rejected with an error value. *)
Inductive Outcome : Type :=
| Fulfilled (response : JsVal)
| Rejected (e : JsVal).

(** Which suspended [async] function waits for a request. *)
Inductive Kont : Type :=
| K_onSend              (* [onSend] awaiting [sendChat] awaiting [api.post] *)
| K_refresh             (* [refresh] awaiting [me] awaiting [api.get] *)
| K_onSend_unmounted.   (* [onSend] of a [ChatPage] that has unmounted since *)

(** Web Storage: the items kept, a map from keys to strings, and the
    room the browser grants the origin, counted in code units of keys
    and values.  The room is the browser's to choose: about five million
    code units is common, and a browser may grant none. *)
Record Storage : Type := { items : gmap string JsString; quota : N }.

Definition default_quota : N := 5242880.

#[global] Instance Storage_empty : Empty Storage :=
  {| items := ∅; quota := default_quota |}.

#[global] Instance Storage_lookup : Lookup string JsString Storage :=
  fun k st => items st !! k.

#[global] Instance Storage_insert : Insert string JsString Storage :=
  fun k v st => {| items := <[k := v]> (items st); quota := quota st |}.

#[global] Instance Storage_delete : Delete string Storage :=
  fun k st => {| items := delete k (items st); quota := quota st |}.

(** The room a set of items takes. *)
Definition storage_size (m : gmap string JsString) : N :=
  map_fold (fun k v acc => (N.of_nat (String.length k) + N.of_nat (length v) + acc)%N)
           0%N m.

(** Writing [v] under [k] stays within the room granted. *)
Definition has_room (k : string) (v : JsString) (st : Storage) : bool :=
  (storage_size (<[k := v]> (items st)) <=? quota st)%N.

Record World : Type :=
  { auth : AuthProvider.State;
    chat : ChatPage.State;
    value : JsString;                       (* [MessageInput]'s [useState] *)
    localStorage : Storage;
    pending : list (Request * Kont) }.      (* requests in flight *)

(* ===================================================================== *)
(** * State and exceptions                                                *)
(* ===================================================================== *)

Definition M (A : Type) : Type := World -> Result A * World.

Definition ret {A} (a : A) : M A := fun w => (Ok a, w).

Definition throw {A} (e : JsVal) : M A := fun w => (Thrown e, w).

Definition bind {A B} (m : M A) (f : A -> M B) : M B :=
  fun w =>
    match m w with
    | (Ok a, w') => f a w'
    | (Thrown e, w') => (Thrown e, w')
    end.

Declare Scope js_scope.
Delimit Scope js_scope with js.
Notation "'let*' x ':=' m 'in' k" := (bind m (fun x => k))
  (at level 100, x name, m at level 99, k at level 200) : js_scope.
Notation "m ';;' k" := (bind m (fun _ => k))
  (at level 100, k at level 200) : js_scope.
Local Open Scope js_scope.

(** Lift a completion that touches no state. *)
Definition completion {A} (r : Result A) : M A := fun w => (r, w).

(** [try { body } catch (e) { handler }] *)
Definition try_catch {A} (body : M A) (handler : JsVal -> M A) : M A :=
  fun w =>
    match body w with
    | (Ok a, w') => (Ok a, w')
    | (Thrown e, w') => handler e w'
    end.

(** [try { body } finally { fin }]: [fin] runs on both completions, and
    the completion of [body] stands unless [fin] itself throws. *)
Definition try_finally {A} (body : M A) (fin : M unit) : M A :=
  fun w =>
    match body w with
    | (r, w') =>
        match fin w' with
        | (Ok _, w'') => (r, w'')
        | (Thrown e, w'') => (Thrown e, w'')
        end
    end.

(** Run a handler for its effect on the state. *)
Definition exec {A} (m : M A) (w : World) : World := snd (m w).

(** ** React setters *)

Definition setUser (u : JsVal) : M unit :=
  fun w =>
    (Ok tt,
     {| auth := {| AuthProvider.user := u;
                   AuthProvider.loading := AuthProvider.loading (auth w) |};
        chat := chat w; value := value w;
        localStorage := localStorage w; pending := pending w |}).

(** [setLoading] of [AuthProvider]. *)
Definition setAuthLoading (b : bool) : M unit :=
  fun w =>
    (Ok tt,
     {| auth := {| AuthProvider.user := AuthProvider.user (auth w);
                   AuthProvider.loading := b |};
        chat := chat w; value := value w;
        localStorage := localStorage w; pending := pending w |}).

Definition setConvId (v : JsVal) : M unit :=
  fun w =>
    (Ok tt,
     {| auth := auth w;
        chat := {| ChatPage.convId := v;
                   ChatPage.msgs := ChatPage.msgs (chat w);
                   ChatPage.loading := ChatPage.loading (chat w) |};
        value := value w;
        localStorage := localStorage w; pending := pending w |}).

(** [setMsgs((m) => ...)]: the updater is applied to the current
    transcript. *)
Definition setMsgs (f : list Message -> list Message) : M unit :=
  fun w =>
    (Ok tt,
     {| auth := auth w;
        chat := {| ChatPage.convId := ChatPage.convId (chat w);
                   ChatPage.msgs := f (ChatPage.msgs (chat w));
                   ChatPage.loading := ChatPage.loading (chat w) |};
        value := value w;
        localStorage := localStorage w; pending := pending w |}).

(** [setLoading] of [ChatPage]. *)
Definition setLoading (b : bool) : M unit :=
  fun w =>
    (Ok tt,
     {| auth := auth w;
        chat := {| ChatPage.convId := ChatPage.convId (chat w);
                   ChatPage.msgs := ChatPage.msgs (chat w);
                   ChatPage.loading := b |};
        value := value w;
        localStorage := localStorage w; pending := pending w |}).

Definition setValue (s : JsString) : M unit :=
  fun w =>
    (Ok tt,
     {| auth := auth w; chat := chat w; value := s;
        localStorage := localStorage w; pending := pending w |}).

Definition set_pending (p : list (Request * Kont)) (w : World) : World :=
  {| auth := auth w; chat := chat w; value := value w;
     localStorage := localStorage w; pending := p |}.

(** ** Web Storage *)

Definition set_storage (f : Storage -> Storage) : M unit :=
  fun w =>
    (Ok tt,
     {| auth := auth w; chat := chat w; value := value w;
        localStorage := f (localStorage w); pending := pending w |}).

(** [localStorage.getItem(k)]: the stored string, or [null]. *)
Definition localStorage_getItem (k : string) : M JsVal :=
  fun w =>
    (Ok (match localStorage w !! k with
         | Some s => JStr s
         | None => JNull
         end), w).

(** The [QuotaExceededError] of [setItem], an exception whose [message]
    is the browser's (here Chrome's wording; no statement depends on
    it). *)
Definition QuotaExceededError (k : string) : JsVal :=
  Error (lit "Failed to execute 'setItem' on 'Storage': Setting the value of '"
           ++ lit k ++ lit "' exceeded the quota.").

(** [localStorage.setItem(k, v)]: stores [ToString v], or throws and
    stores nothing when that would exceed the room granted. *)
Definition localStorage_setItem (k : string) (v : JsVal) : M unit :=
  fun w =>
    if has_room k (ToString v) (localStorage w)
    then set_storage (fun m => <[k := ToString v]> m) w
    else (Thrown (QuotaExceededError k), w).

(** [localStorage.removeItem(k)] *)
Definition localStorage_removeItem (k : string) : M unit :=
  set_storage (fun m => delete k m).

(** ** The HTTP client *)

(** Modelled from the spec: the client module [api/client.js] imported as
    [api] is not among the sources.  Per the specification it is an
    opaque client offering [GET]/[POST] with JSON bodies, and every
    request carries the persisted token as its bearer credential; the
    token is the string kept under the key that [login] writes and
    [logout] removes.  Calling it yields the request whose settlement the
    caller awaits. *)
Definition api_request (m : Method) (url : string) (body : JsVal) : M Request :=
  fun w =>
    (Ok {| rq_method := m; rq_url := url; rq_body := body;
           rq_bearer := localStorage w !! "access_token"%string |}, w).

Definition api_get (url : string) : M Request := api_request GET url JUndefined.
Definition api_post (url : string) (body : JsVal) : M Request := api_request POST url body.

(** [await p], once [p] has settled. *)
Definition await (o : Outcome) : M JsVal :=
  match o with
  | Fulfilled r => ret r
  | Rejected e => throw e
  end.

(** Reify the completion of a call made inside a [try] block. *)
Definition attempt {A} (m : M A) : M (Result A) :=
  fun w => match m w with (r, w') => (Ok r, w') end.

(* ===================================================================== *)
(** * [api/auth.js]                                                       *)
(* ===================================================================== *)

(** [register(payload)], up to its [await] and after it. *)
Definition register_send (payload : JsVal) : M Request :=
  api_post "/auth/register" payload.

Definition register_then (o : Outcome) : M JsVal :=
  let* response := await o in
  completion (GetV response "data").

(** [login(email, password)], line 51 up to the [await]. *)
Definition login_send (email password : JsVal) : M Request :=
  api_post "/auth/login" (JObj [("email"%string, email); ("password"%string, password)]).

(** [login], lines 51-53 after the [await]: destructure [data], store the
    token, return [data]. *)
Definition login_then (o : Outcome) : M JsVal :=
  let* response := await o in
  let* data := completion (GetV response "data") in
  let* access_token := completion (GetV data "access_token") in
  localStorage_setItem "access_token" access_token ;;
  ret data.

(** [me()] *)
Definition me_send : M Request := api_get "/auth/me".

Definition me_then (o : Outcome) : M JsVal :=
  let* response := await o in
  completion (GetV response "data").

(** [logout()] *)
Definition logout : M unit := localStorage_removeItem "access_token".

(* ===================================================================== *)
(** * [api/chat.js]                                                       *)
(* ===================================================================== *)

(** [message.trim()] on a truthy [message]: only a string has the method. *)
Definition call_trim (message : JsVal) : M JsVal :=
  match message with
  | JStr s => ret (JStr (trim s))
  | _ => throw (TypeError_not_a_function "message.trim")
  end.

(** [sendChat({ message, conversationId, where })], lines 11-19 up to the
    [await]. *)
Definition sendChat_send (message conversationId where_ : JsVal) : M Request :=
  let* invalid :=
    (if negb (truthy message) then ret true
     else let* t := call_trim message in ret (negb (truthy t))) in
  if (invalid : bool) then throw (Error (lit "Message is required"))
  else
    let payload :=
      spread
        (spread [("message"%string, message)]
           (if truthy conversationId
            then [("conversation_id"%string, conversationId)] else []))
        (if truthy where_ then [("where"%string, where_)] else []) in
    api_post "/chat" (JObj payload).

(** [sendChat], line 22: [return res.data]. *)
Definition sendChat_then (o : Outcome) : M JsVal :=
  let* res := await o in
  completion (GetV res "data").

(* ===================================================================== *)
(** * [auth/AuthContext.jsx] and [auth/ProtectedRoute.jsx]                *)
(* ===================================================================== *)

(** [refresh()], lines 20-21: entering the [try] and calling [me()]. *)
Definition refresh_send : M (Result Request) := attempt me_send.

(** [refresh()], lines 20-27, once [me()] has settled as [awaited]. *)
Definition refresh_then (awaited : M JsVal) : M unit :=
  try_finally
    (try_catch
       (let* u := awaited in
        setUser u)
       (fun _ => setUser JNull))
    (setAuthLoading false).

(** What a route element renders to. *)
Inductive Element (C : Type) : Type :=
| Loading_div                                   (* [<div ...>Loading...</div>] *)
| Navigate (to : string) (replace : bool)       (* [<Navigate to=... replace />] *)
| Children (c : C).
Arguments Loading_div {C}.
Arguments Navigate {C} to replace.
Arguments Children {C} c.

(** [ProtectedRoute({ children })] over the context value of [useAuth()]. *)
Definition ProtectedRoute {C} (children : C) (ctx : AuthProvider.State) : Element C :=
  if AuthProvider.loading ctx then Loading_div
  else if negb (truthy (AuthProvider.user ctx)) then Navigate "/login" true
  else Children children.

(* ===================================================================== *)
(** * [pages/Chat.jsx] and [components/MessageInput.jsx]                  *)
(* ===================================================================== *)

Definition get_convId : M JsVal := fun w => (Ok (ChatPage.convId (chat w)), w).

(** The literal that opens the error entry: U+26A0, U+FE0F, space. *)
Definition warning_prefix : JsString := [0x26A0; 0xFE0F; 0x20]%N.

(** [onSend], lines 48-51:
    [e?.response?.data?.detail || e?.message || "Chat error"]. *)
Definition serverDetail (e : JsVal) : JsVal :=
  or_else
    (or_else (opt_chain (opt_chain (opt_chain e "response") "data") "detail")
             (opt_chain e "message"))
    (JStr (lit "Chat error")).

(** [onSend(text)], lines 32-41: the optimistic append, the busy flag and
    the call of [sendChat] inside the [try], with the [convId] of the
    render the handler belongs to. *)
Definition onSend_send (text : JsVal) : M (Result Request) :=
  let userMsg := {| role := user_role; content := text |} in
  setMsgs (fun m => m ++ [userMsg]) ;;
  setLoading true ;;
  let* convId := get_convId in
  attempt (sendChat_send text convId JUndefined).

(** [onSend], lines 36-55, once [sendChat] has settled as [awaited]. *)
Definition onSend_then (awaited : M JsVal) : M unit :=
  try_finally
    (try_catch
       (let* res := awaited in
        let* id := completion (GetV res "conversation_id") in
        setConvId id ;;
        let* id' := completion (GetV res "conversation_id") in
        localStorage_setItem "convId" id' ;;
        let* answer := completion (GetV res "answer") in
        setMsgs (fun m => m ++ [ {| role := assistant_role; content := answer |} ]))
       (fun e =>
          setMsgs (fun m => m ++ [ {| role := assistant_role;
                                      content := JStr (warning_prefix ++ ToString (serverDetail e)) |} ])))
    (setLoading false).

(** The props [ChatPage] passes at line 69:
    [<MessageInput onSend={onSend} disabled={loading} />]. *)
Record MessageInputProps : Type := { disabled : bool }.

Definition ChatPage_props (w : World) : MessageInputProps :=
  {| disabled := ChatPage.loading (chat w) |}.

(** ** The event loop *)

(** A function of a component that has unmounted: the state setters it
    closes over do nothing any more, and of what it does only the
    storage keeps a trace. *)
Definition unmounted {A} (m : M A) : M A :=
  fun w =>
    let (r, w') := m w in
    (r, {| auth := auth w; chat := chat w; value := value w;
           localStorage := localStorage w'; pending := pending w |}).

(** The part of a suspended function that runs when its request settles. *)
Definition resume (k : Kont) (awaited : M JsVal) : M unit :=
  match k with
  | K_onSend => onSend_then awaited
  | K_refresh => refresh_then awaited
  | K_onSend_unmounted => unmounted (onSend_then awaited)
  end.

Definition callee_then (k : Kont) (o : Outcome) : M JsVal :=
  match k with
  | K_onSend => sendChat_then o
  | K_refresh => me_then o
  | K_onSend_unmounted => sendChat_then o
  end.

(** A call that reached its [await] is parked with its request. *)
Definition suspend (started : Result Request) (k : Kont) (w : World) : World :=
  match started with
  | Ok rq => set_pending (pending w ++ [(rq, k)]) w
  | Thrown _ => w
  end.

(** A call whose callee threw before any request awaits an already
    rejected promise: it resumes in a microtask, after the calling
    handler has returned. *)
Definition microtask (started : Result Request) (k : Kont) (w : World) : World :=
  match started with
  | Ok _ => w
  | Thrown e => exec (resume k (throw e)) w
  end.

(** [MessageInput({ onSend })], lines 6-11.  The component destructures
    only [onSend] from its props; [handleSend] and the rendered [input]
    and [button] never read [disabled]. *)
Definition handleSend (props : MessageInputProps) (w : World) : World :=
  let v := trim (value w) in
  if negb (truthy (JStr v)) then w
  else
    match onSend_send (JStr v) w with
    | (Ok started, w1) =>
        let w2 := suspend started K_onSend w1 in
        let w3 := exec (setValue []) w2 in
        microtask started K_onSend w3
    | (Thrown _, w1) => exec (setValue []) w1
    end.

(** [useEffect(() => { refresh(); }, [])], and any later call of
    [refresh()]. *)
Definition call_refresh (w : World) : World :=
  match refresh_send w with
  | (Ok started, w1) => microtask started K_refresh (suspend started K_refresh w1)
  | (Thrown _, w1) => w1
  end.

(** The instance of [ChatPage] that was mounted is gone: the calls of
    [onSend] it left waiting belong to no mounted component. *)
Definition unmount (p : Request * Kont) : Request * Kont :=
  match snd p with
  | K_onSend => (fst p, K_onSend_unmounted)
  | K_refresh | K_onSend_unmounted => p
  end.

(** [ChatPage] mounting: fresh state cells (lines 9-13, and the input's
    own at [MessageInput], line 4), then the effect of lines 26-29.  The
    requests of an earlier instance stay in flight, on functions of a
    component that is no longer mounted.  The scrolling of lines 20-24
    touches none of the state modelled here; the identity probe of
    lines 16-18 is modelled with the pages, at [ChatPage_open]. *)
Definition ChatPage_mount : M unit :=
  (fun w => (Ok tt, {| auth := auth w; chat := ChatPage.init; value := [];
                       localStorage := localStorage w;
                       pending := map unmount (pending w) |})) ;;
  let* savedConvId := localStorage_getItem "convId" in
  if truthy savedConvId then setConvId savedConvId else ret tt.

(** A request settles and the function parked on it runs to its end. *)
Definition settle (i : nat) (o : Outcome) (w : World) : World :=
  match pending w !! i with
  | None => w
  | Some (_, k) =>
      exec (resume k (callee_then k o)) (set_pending (delete i (pending w)) w)
  end.

(** The application starting in a browser whose storage is [store]:
    [AuthProvider] mounts and its effect calls [refresh()]. *)
Definition App_mount (store : Storage) : World :=
  call_refresh
    {| auth := AuthProvider.init; chat := ChatPage.init; value := [];
       localStorage := store; pending := [] |}.

(** A page reload keeps the storage and nothing else. *)
Definition reload (w : World) : World := App_mount (localStorage w).

Inductive Event : Type :=
| Ev_change (s : JsString)          (* typing: [onChange] *)
| Ev_send                           (* Enter or the Send button *)
| Ev_settle (i : nat) (o : Outcome) (* the [i]-th request in flight settles *)
| Ev_refresh                        (* [refresh()] is called *)
| Ev_logout                         (* [logout()] is called *)
| Ev_open_chat.                     (* the guard admits and [ChatPage] mounts *)

Definition step (w : World) (ev : Event) : World :=
  match ev with
  | Ev_change s => exec (setValue s) w
  | Ev_send => handleSend (ChatPage_props w) w
  | Ev_settle i o => settle i o w
  | Ev_refresh => call_refresh w
  | Ev_logout => exec logout w
  | Ev_open_chat => exec ChatPage_mount w
  end.

Definition run (w : World) (evs : list Event) : World := fold_left step evs w.

Definition is_chat (p : Request * Kont) : bool :=
  match snd p with
  | K_onSend => true
  | K_refresh | K_onSend_unmounted => false
  end.

(** The chat requests in flight from the mounted view. *)
Definition chats_in_flight (w : World) : list Request :=
  map fst (List.filter is_chat (pending w)).

(* ===================================================================== *)
(** * Vocabulary of the statements                                        *)
(* ===================================================================== *)

(** The body [sendChat] posts for a message and a held identifier when no
    filter is given. *)
Definition chat_body (message conversationId : JsVal) : JsVal :=
  JObj (("message"%string, message)
          :: (if truthy conversationId
              then [("conversation_id"%string, conversationId)] else [])).

Definition chat_request (message conversationId : JsVal) (w : World) : Request :=
  {| rq_method := POST; rq_url := "/chat";
     rq_body := chat_body message conversationId;
     rq_bearer := localStorage w !! "access_token"%string |}.

(** The exception, if any, with which the [try] block of [onSend]
    completes before the identifier of the response is taken up: the
    rejection itself, or the [TypeError] of reading [data] or
    [conversation_id] off [null] or [undefined]. *)
Definition exchange_error (o : Outcome) : option JsVal :=
  match o with
  | Rejected e => Some e
  | Fulfilled response =>
      match GetV response "data" with
      | Thrown e => Some e
      | Ok res =>
          match GetV res "conversation_id" with
          | Thrown e => Some e
          | Ok _ => None
          end
      end
  end.

(** The entry the [catch] block appends for an exception [e]. *)
Definition error_entry (e : JsVal) : Message :=
  {| role := assistant_role;
     content := JStr (warning_prefix ++ ToString (serverDetail e)) |}.

(** The identifier a response brings, when the [try] block of [onSend]
    gets as far as reading it. *)
Definition response_id (o : Outcome) : option JsVal :=
  match o with
  | Rejected _ => None
  | Fulfilled response =>
      match GetV response "data" with
      | Thrown _ => None
      | Ok res =>
          match GetV res "conversation_id" with
          | Thrown _ => None
          | Ok c => Some c
          end
      end
  end.

(** The exception, if any, with which the [try] block of [onSend]
    completes in a world: one of the above, or the [QuotaExceededError]
    of storing the identifier. *)
Definition turn_error (o : Outcome) (w : World) : option JsVal :=
  match exchange_error o with
  | Some e => Some e
  | None =>
      match response_id o with
      | Some c =>
          if has_room "convId" (ToString c) (localStorage w) then None
          else Some (QuotaExceededError "convId")
      | None => None
      end
  end.

(** The reason of a failure as the specification words it: the detail
    supplied by the server if it is present, else the message of the
    error if it is present, else the fallback literal; present meaning
    neither [undefined] nor [null]. *)
Definition claimed_reason (e : JsVal) : JsVal :=
  let detail := opt_chain (opt_chain (opt_chain e "response") "data") "detail" in
  let message := opt_chain e "message" in
  if negb (nullish detail) then detail
  else if negb (nullish message) then message
  else JStr (lit "Chat error").

(** The string a conversation identifier of the documented type
    ([string|number]) is stored as: the string itself, the decimal
    numeral of a safe integer. *)
Definition id_text (c : JsVal) : option JsString :=
  match c with
  | JStr s => Some s
  | JNum n =>
      if safe_integer n then Some (lit (NilZero.string_of_int (Z.to_int n))) else None
  | _ => None
  end.

(** The request [me()] issues from a world. *)
Definition me_request (w : World) : Request :=
  {| rq_method := GET; rq_url := "/auth/me"; rq_body := JUndefined;
     rq_bearer := localStorage w !! "access_token"%string |}.

(** What [refresh] leaves in [user] for an outcome of the identity
    request: the [data] of the response, or [null] when [me()] throws. *)
Definition refreshed_user (o : Outcome) : JsVal :=
  match o with
  | Fulfilled response =>
      match GetV response "data" with
      | Ok u => u
      | Thrown _ => JNull
      end
  | Rejected _ => JNull
  end.

Definition is_user (m : Message) : bool :=
  match role m with user_role => true | assistant_role => false end.

Definition is_assistant (m : Message) : bool :=
  match role m with user_role => false | assistant_role => true end.

(** Events other than a remount of the chat view. *)
Definition keeps_view (ev : Event) : bool :=
  match ev with Ev_open_chat => false | _ => true end.

(* ===================================================================== *)
(** * Sample data                                                         *)
(* ===================================================================== *)

(** The chat view just opened in a browser with empty storage. *)
Definition fresh_chat : World := exec ChatPage_mount (App_mount ∅).

(** The visitor has typed a request ... *)
Definition typed_chat : World := exec (setValue (lit "  cozy fantasy ")) fresh_chat.

(** ... and pressed Send: the identity check and the chat request are in
    flight, at positions 0 and 1. *)
Definition busy_chat : World := handleSend (ChatPage_props typed_chat) typed_chat.

(** A rejection carrying a structured backend detail. *)
Definition not_found_error : JsVal :=
  JObj [("message"%string, JStr (lit "Request failed with status code 404"));
        ("response"%string,
         JObj [("status"%string, JNum 404);
               ("data"%string,
                JObj [("detail"%string, JStr (lit "conversation not found"))])])].

(** A rejection whose detail is there but empty. *)
Definition empty_detail_error : JsVal :=
  JObj [("message"%string, JStr (lit "Network Error"));
        ("response"%string,
         JObj [("data"%string, JObj [("detail"%string, JStr [])])])].

(** A browser whose storage, holding the token of a session, is filled
    to the room granted (the twelve code units of the key and the five
    of the token), and the chat view in it with a turn pending (the
    identity check and the chat request in flight, at positions 0
    and 1). *)
Definition full_store : Storage :=
  {| items := {[ "access_token"%string := lit "tok-1" ]}; quota := 17 |}.

Definition busy_chat_full_store : World :=
  run (exec ChatPage_mount (App_mount full_store))
      [Ev_change (lit "cozy fantasy"); Ev_send].

(** A successful chat response whose identifier is a number. *)
Definition reply_42 : JsVal :=
  JObj [("status"%string, JNum 200);
        ("data"%string,
         JObj [("conversation_id"%string, JNum 42);
               ("answer"%string, JStr (lit "Try Piranesi."))])].

(** A successful chat response. *)
Definition reply_abc123 : JsVal :=
  JObj [("status"%string, JNum 200);
        ("data"%string,
         JObj [("conversation_id"%string, JStr (lit "abc123"));
               ("answer"%string, JStr (lit "Try The Goblin Emperor."))])].

(** A successful login response and the profile behind its token. *)
Definition login_ok : JsVal :=
  JObj [("status"%string, JNum 200);
        ("data"%string,
         JObj [("access_token"%string, JStr (lit "tok-1"));
               ("token_type"%string, JStr (lit "bearer"))])].

Definition profile_u : JsVal :=
  JObj [("id"%string, JNum 7); ("email"%string, JStr (lit "u@x.com"));
        ("role"%string, JStr (lit "user"))].

(** A backend that knows one token. *)
Definition one_token_backend (rq : Request) : Outcome :=
  match rq_bearer rq with
  | Some t =>
      if decide (t = lit "tok-1")
      then Fulfilled (JObj [("data"%string, profile_u)])
      else Rejected (Error (lit "Request failed with status code 401"))
  | None => Rejected (Error (lit "Request failed with status code 401"))
  end.

(** How many entries of a transcript satisfy [f]. *)
Definition count (f : Message -> bool) (l : list Message) : nat :=
  length (List.filter f l).

(* ===================================================================== *)
(** * The pages around the chat view                                      *)
(* ===================================================================== *)

(** [a ?? b] *)
Definition nullish_or (a b : JsVal) : JsVal := if nullish a then b else a.

(** [e?.response?.data?.detail] *)
Definition detail_of (e : JsVal) : JsVal :=
  opt_chain (opt_chain (opt_chain e "response") "data") "detail".

(** [Login.jsx], lines 7-10: the [useState] cells of [LoginPage]. *)
Module LoginPage.
Record State : Type :=
  { email : JsString; password : JsString; err : JsVal; loading : bool }.
Definition init : State :=
  {| email := []; password := []; err := JNull; loading := false |}.
End LoginPage.

(** [Register.jsx], lines 6-13: the [useState] cells of [RegisterPage];
    [form] is the object [{ email, name, password, role }]. *)
Module RegisterPage.
Record State : Type :=
  { form : list (string * JsVal); err : JsVal; ok : bool }.
Definition init : State :=
  {| form := [("email"%string, JStr []); ("name"%string, JStr []);
              ("password"%string, JStr []); ("role"%string, JStr (lit "user"))];
     err := JNull; ok := false |}.
End RegisterPage.

(** Which page function waits for a request. *)
Inductive PageKont : Type :=
| K_login_probe       (* [LoginPage]'s effect: [me().then(...).catch(...)] *)
| K_submit_login      (* [LoginPage.onSubmit] awaiting [login] *)
| K_submit_refresh    (* [LoginPage.onSubmit] awaiting [refresh] awaiting [me] *)
| K_register_submit   (* [RegisterPage.onSubmit] awaiting [register] *)
| K_chat_probe.       (* [ChatPage]'s effect: [me().catch(...)] *)

(** The callback handed to [setTimeout]: [() => nav(to, { replace })]. *)
Inductive Callback : Type :=
| Cb_nav (to : string) (replace : bool).

(** The whole tab: the state of the chat view and the session, the
    session history of the browser (current entry first), the cells of
    the two forms, the requests the pages wait for, and the timers set. *)
Record Site : Type :=
  { world : World;
    history : list string;
    login_page : LoginPage.State;
    register_page : RegisterPage.State;
    awaiting : list (Request * PageKont);
    timers : list (Z * Callback) }.

Definition P (A : Type) : Type := Site -> Result A * Site.

Definition p_ret {A} (a : A) : P A := fun s => (Ok a, s).

Definition p_throw {A} (e : JsVal) : P A := fun s => (Thrown e, s).

Definition p_bind {A B} (m : P A) (f : A -> P B) : P B :=
  fun s =>
    match m s with
    | (Ok a, s') => f a s'
    | (Thrown e, s') => (Thrown e, s')
    end.

Declare Scope page_scope.
Delimit Scope page_scope with page.
Notation "'let*' x ':=' m 'in' k" := (p_bind m (fun x => k))
  (at level 100, x name, m at level 99, k at level 200) : page_scope.
Notation "m ';;' k" := (p_bind m (fun _ => k))
  (at level 100, k at level 200) : page_scope.
Local Open Scope page_scope.

Definition p_try_catch {A} (body : P A) (handler : JsVal -> P A) : P A :=
  fun s =>
    match body s with
    | (Ok a, s') => (Ok a, s')
    | (Thrown e, s') => handler e s'
    end.

Definition p_try_finally {A} (body : P A) (fin : P unit) : P A :=
  fun s =>
    match body s with
    | (r, s') =>
        match fin s' with
        | (Ok _, s'') => (r, s'')
        | (Thrown e, s'') => (Thrown e, s'')
        end
    end.

Definition p_exec {A} (m : P A) (s : Site) : Site := snd (m s).

Definition set_world (w : World) (s : Site) : Site :=
  {| world := w; history := history s; login_page := login_page s;
     register_page := register_page s; awaiting := awaiting s; timers := timers s |}.

Definition set_history (h : list string) (s : Site) : Site :=
  {| world := world s; history := h; login_page := login_page s;
     register_page := register_page s; awaiting := awaiting s; timers := timers s |}.

Definition set_login_page (l : LoginPage.State) (s : Site) : Site :=
  {| world := world s; history := history s; login_page := l;
     register_page := register_page s; awaiting := awaiting s; timers := timers s |}.

Definition set_register_page (r : RegisterPage.State) (s : Site) : Site :=
  {| world := world s; history := history s; login_page := login_page s;
     register_page := r; awaiting := awaiting s; timers := timers s |}.

Definition set_awaiting (a : list (Request * PageKont)) (s : Site) : Site :=
  {| world := world s; history := history s; login_page := login_page s;
     register_page := register_page s; awaiting := a; timers := timers s |}.

Definition set_timers (t : list (Z * Callback)) (s : Site) : Site :=
  {| world := world s; history := history s; login_page := login_page s;
     register_page := register_page s; awaiting := awaiting s; timers := t |}.

(** Code of the session and of the API modules running inside a page. *)
Definition lift {A} (m : M A) : P A :=
  fun s => match m (world s) with (r, w') => (r, set_world w' s) end.

Definition park (rq : Request) (k : PageKont) (s : Site) : Site :=
  set_awaiting (awaiting s ++ [(rq, k)]) s.

(** [nav(to, { replace })] of [useNavigate()]: the current history entry
    is replaced, or a new one is pushed. *)
Definition navigate (to : string) (replace : bool) : P unit :=
  fun s =>
    (Ok tt,
     set_history
       (if replace
        then match history s with
             | [] => [to]
             | _ :: older => to :: older
             end
        else to :: history s) s).

(** [setTimeout(cb, ms)] *)
Definition setTimeout (cb : Callback) (ms : Z) : P unit :=
  fun s => (Ok tt, set_timers (timers s ++ [(ms, cb)]) s).

(** ** [pages/Login.jsx] *)

Definition setEmail (v : JsString) : P unit :=
  fun s =>
    (Ok tt,
     set_login_page
       {| LoginPage.email := v;
          LoginPage.password := LoginPage.password (login_page s);
          LoginPage.err := LoginPage.err (login_page s);
          LoginPage.loading := LoginPage.loading (login_page s) |} s).

Definition setPassword (v : JsString) : P unit :=
  fun s =>
    (Ok tt,
     set_login_page
       {| LoginPage.email := LoginPage.email (login_page s);
          LoginPage.password := v;
          LoginPage.err := LoginPage.err (login_page s);
          LoginPage.loading := LoginPage.loading (login_page s) |} s).

(** [setErr] of [LoginPage]. *)
Definition setLoginErr (v : JsVal) : P unit :=
  fun s =>
    (Ok tt,
     set_login_page
       {| LoginPage.email := LoginPage.email (login_page s);
          LoginPage.password := LoginPage.password (login_page s);
          LoginPage.err := v;
          LoginPage.loading := LoginPage.loading (login_page s) |} s).

(** [setLoading] of [LoginPage]. *)
Definition setLoginLoading (b : bool) : P unit :=
  fun s =>
    (Ok tt,
     set_login_page
       {| LoginPage.email := LoginPage.email (login_page s);
          LoginPage.password := LoginPage.password (login_page s);
          LoginPage.err := LoginPage.err (login_page s);
          LoginPage.loading := b |} s).

(** [LoginPage] mounting: fresh cells, then the effect of lines 14-16
    calls [me()]. *)
Definition LoginPage_mount (s : Site) : Site :=
  let s1 := set_login_page LoginPage.init s in
  match lift me_send s1 with
  | (Ok rq, s2) => park rq K_login_probe s2
  | (Thrown _, s2) => s2
  end.

(** Line 15 once [me()] has settled:
    [me().then(() => nav("/chat", { replace: true })).catch(() => {})]. *)
Definition LoginPage_probe_then (o : Outcome) : P unit :=
  p_try_catch
    (lift (me_then o) ;;
     navigate "/chat" true)
    (fun _ => p_ret tt).

(** [onSubmit], lines 25-29: the [catch] and [finally] blocks around what
    is left of the [try] block. *)
Definition LoginPage_try (rest : P unit) : P unit :=
  p_try_finally
    (p_try_catch rest
       (fun e => setLoginErr (nullish_or (detail_of e) (JStr (lit "Login failed")))))
    (setLoginLoading false).

(** [onSubmit(e)], lines 19-22, up to the [await] of [login]. *)
Definition LoginPage_onSubmit (s : Site) : Site :=
  let s1 := p_exec (setLoginErr JNull ;; setLoginLoading true) s in
  match lift (login_send (JStr (LoginPage.email (login_page s)))
                         (JStr (LoginPage.password (login_page s)))) s1 with
  | (Ok rq, s2) => park rq K_submit_login s2
  | (Thrown e, s2) => p_exec (LoginPage_try (p_throw e)) s2
  end.

(** [onSubmit], lines 22-23, once [login] has settled: its rest runs, and
    [refresh()] is called and awaited. *)
Definition LoginPage_after_login (o : Outcome) (s : Site) : Site :=
  match lift (login_then o) s with
  | (Thrown e, s1) => p_exec (LoginPage_try (p_throw e)) s1
  | (Ok _, s1) =>
      match lift refresh_send s1 with
      | (Ok (Ok rq), s2) => park rq K_submit_refresh s2
      | (Ok (Thrown e), s2) =>
          p_exec (LoginPage_try (lift (refresh_then (throw e)) ;;
                                 navigate "/chat" true)) s2
      | (Thrown e, s2) => p_exec (LoginPage_try (p_throw e)) s2
      end
  end.

(** [onSubmit], lines 23-29, once the [me()] of [refresh()] has settled. *)
Definition LoginPage_after_refresh (o : Outcome) : P unit :=
  LoginPage_try
    (lift (refresh_then (me_then o)) ;;
     navigate "/chat" true).

(** Line 72, [{err && <div ...>{String(err)}</div>}]: the text of the
    error line, when the error [div] is rendered. *)
Definition LoginPage_error_shown (s : Site) : option JsString :=
  if truthy (LoginPage.err (login_page s))
  then Some (ToString (LoginPage.err (login_page s)))
  else None.

(** ** [pages/Register.jsx] *)

Definition setForm (f : list (string * JsVal)) : P unit :=
  fun s =>
    (Ok tt,
     set_register_page
       {| RegisterPage.form := f;
          RegisterPage.err := RegisterPage.err (register_page s);
          RegisterPage.ok := RegisterPage.ok (register_page s) |} s).

(** [setErr] of [RegisterPage]. *)
Definition setRegisterErr (v : JsVal) : P unit :=
  fun s =>
    (Ok tt,
     set_register_page
       {| RegisterPage.form := RegisterPage.form (register_page s);
          RegisterPage.err := v;
          RegisterPage.ok := RegisterPage.ok (register_page s) |} s).

Definition setOk (b : bool) : P unit :=
  fun s =>
    (Ok tt,
     set_register_page
       {| RegisterPage.form := RegisterPage.form (register_page s);
          RegisterPage.err := RegisterPage.err (register_page s);
          RegisterPage.ok := b |} s).

(** [handleChange(e)], lines 16-18, with [e.target.name] and
    [e.target.value]: [setForm({ ...form, [name]: value })]. *)
Definition handleChange (name : string) (value : JsString) : P unit :=
  fun s =>
    setForm (spread (spread [] (RegisterPage.form (register_page s)))
                    [(name, JStr value)]) s.

(** The three inputs [RegisterPage] renders (lines 39-41); the [select]
    for [role] is commented out. *)
Inductive RegisterInput : Type := In_email | In_name | In_password.

Definition input_name (i : RegisterInput) : string :=
  match i with
  | In_email => "email"
  | In_name => "name"
  | In_password => "password"
  end.

Definition RegisterPage_mount (s : Site) : Site :=
  set_register_page RegisterPage.init s.

(** Typing into the rendered inputs, one [onChange] after the other. *)
Definition RegisterPage_type (keys : list (RegisterInput * JsString)) (s : Site) : Site :=
  fold_left (fun acc kv => p_exec (handleChange (input_name (fst kv)) (snd kv)) acc)
            keys s.

(** [onSubmit(e)], lines 21-24, up to the [await] of [register(form)]. *)
Definition RegisterPage_onSubmit (s : Site) : Site :=
  let s1 := p_exec (setRegisterErr JNull ;; setOk false) s in
  match lift (register_send (JObj (RegisterPage.form (register_page s)))) s1 with
  | (Ok rq, s2) => park rq K_register_submit s2
  | (Thrown e, s2) =>
      p_exec (setRegisterErr (nullish_or (detail_of e) (JStr (lit "Register failed")))) s2
  end.

(** [onSubmit], lines 23-29, once [register] has settled. *)
Definition RegisterPage_after_register (o : Outcome) : P unit :=
  p_try_catch
    (lift (register_then o) ;;
     setOk true ;;
     setTimeout (Cb_nav "/login" true) 700)
    (fun e => setRegisterErr (nullish_or (detail_of e) (JStr (lit "Register failed")))).

(** ** [components/Navbar.jsx] *)

(** [onLogout()], lines 9-12. *)
Definition onLogout : P unit :=
  lift logout ;;
  navigate "/login" true.

(** Line 29: [{user && <button ...>Logout</button>}]. *)
Definition Navbar_shows_logout (s : Site) : bool :=
  truthy (AuthProvider.user (auth (world s))).

(** ** [pages/Chat.jsx], the identity probe *)

(** [ChatPage] mounting inside the tab: the cells and the stored
    identifier as in [ChatPage_mount], and the effect of lines 16-18
    calling [me()]. *)
Definition ChatPage_open (s : Site) : Site :=
  let s1 := p_exec (lift ChatPage_mount) s in
  match lift me_send s1 with
  | (Ok rq, s2) => park rq K_chat_probe s2
  | (Thrown _, s2) => s2
  end.

(** [window.location.href = to]: a new history entry and a fresh load of
    the application; only the storage and the history survive. *)
Definition location_assign (to : string) (s : Site) : Site :=
  {| world := reload (world s);
     history := to :: history s;
     login_page := LoginPage.init;
     register_page := RegisterPage.init;
     awaiting := [];
     timers := [] |}.

(** Line 17 once [me()] has settled:
    [me().catch(() => (window.location.href = "/login"))]. *)
Definition ChatPage_probe_then (o : Outcome) (s : Site) : Site :=
  match lift (me_then o) s with
  | (Ok _, s1) => s1
  | (Thrown _, s1) => location_assign "/login" s1
  end.

(** ** Settlements and timers of the pages *)

Definition resume_page (k : PageKont) (o : Outcome) (s : Site) : Site :=
  match k with
  | K_login_probe => p_exec (LoginPage_probe_then o) s
  | K_submit_login => LoginPage_after_login o s
  | K_submit_refresh => p_exec (LoginPage_after_refresh o) s
  | K_register_submit => p_exec (RegisterPage_after_register o) s
  | K_chat_probe => ChatPage_probe_then o s
  end.

(** The [i]-th request a page waits for settles. *)
Definition settle_page (i : nat) (o : Outcome) (s : Site) : Site :=
  match awaiting s !! i with
  | None => s
  | Some (_, k) => resume_page k o (set_awaiting (delete i (awaiting s)) s)
  end.

(** The [i]-th timer fires. *)
Definition fire_timer (i : nat) (s : Site) : Site :=
  match timers s !! i with
  | None => s
  | Some (_, Cb_nav to replace) =>
      p_exec (navigate to replace) (set_timers (delete i (timers s)) s)
  end.

(** The tab just loaded, with history [h] (current entry first) and
    storage [store]. *)
Definition Site_load_at (h : list string) (store : Storage) : Site :=
  {| world := App_mount store;
     history := h;
     login_page := LoginPage.init;
     register_page := RegisterPage.init;
     awaiting := [];
     timers := [] |}.

(** The tab on a fresh load of [path] with storage [store]. *)
Definition Site_load (path : string) (store : Storage) : Site :=
  Site_load_at [path] store.

(** ** Vocabulary of the further statements *)

(** No exchange pending means not busy. *)
Definition idle_means_not_busy (w : World) : Prop :=
  chats_in_flight w = [] -> ChatPage.loading (chat w) = false.

Definition RegisterInput_eqb (a b : RegisterInput) : bool :=
  match a, b with
  | In_email, In_email | In_name, In_name | In_password, In_password => true
  | _, _ => false
  end.

(** What was typed last into an input, the empty string if nothing was. *)
Definition last_typed (i : RegisterInput) (keys : list (RegisterInput * JsString))
  : JsString :=
  fold_left (fun acc kv => if RegisterInput_eqb i (fst kv) then snd kv else acc)
            keys [].

(** [nav(to, { replace: true })] on a history. *)
Definition replaced (to : string) (h : list string) : list string :=
  match h with
  | [] => [to]
  | _ :: older => to :: older
  end.

(** A tab on the login screen with credentials typed, and one on the
    registration screen. *)
Definition login_typed : Site :=
  p_exec (p_bind (setEmail (lit "u@x.com")) (fun _ => setPassword (lit "pw")))
         (LoginPage_mount (Site_load "/login" ∅)).

Definition bad_credentials : JsVal :=
  JObj [("message"%string, JStr (lit "Request failed with status code 401"));
        ("response"%string,
         JObj [("status"%string, JNum 401);
               ("data"%string,
                JObj [("detail"%string, JStr (lit "Invalid credentials"))])])].

Definition register_typed : Site :=
  RegisterPage_type
    [(In_email, lit "u@x.co"); (In_name, lit "U"); (In_email, lit "u@x.com");
     (In_password, lit "pw")]
    (RegisterPage_mount (Site_load "/register" ∅)).

Local Close Scope page_scope.

(* ===================================================================== *)
(** * Properties of [trim]                                                *)
(* ===================================================================== *)

Lemma trimStart_head (s : JsString) :
  trimStart s = [] \/ exists c rest, trimStart s = c :: rest /\ isWhiteSpace c = false.
Proof.
  induction s as [|c rest IH]; simpl.
  - now left.
  - destruct (isWhiteSpace c) eqn:Hc.
    + exact IH.
    + right. now exists c, rest.
Qed.

Lemma trimStart_keep (c : N) (rest : JsString) :
  isWhiteSpace c = false -> trimStart (c :: rest) = c :: rest.
Proof. intros Hc. simpl. now rewrite Hc. Qed.

Lemma trimEnd_keep (c : N) (rest : JsString) :
  isWhiteSpace c = false -> trimEnd (c :: rest) = c :: trimEnd rest.
Proof. intros Hc. simpl. rewrite Hc. now destruct (trimEnd rest). Qed.

Lemma trimEnd_idempotent (s : JsString) : trimEnd (trimEnd s) = trimEnd s.
Proof.
  induction s as [|c rest IH]; simpl; [reflexivity|].
  destruct (trimEnd rest) as [|k kept] eqn:Hrest.
  - destruct (isWhiteSpace c) eqn:Hc; simpl; [reflexivity|]. now rewrite Hc.
  - change (trimEnd (c :: k :: kept)) with
      (match trimEnd (k :: kept) with
       | [] => if isWhiteSpace c then [] else [c]
       | kept' => c :: kept'
       end).
    now rewrite IH.
Qed.

(** Trimming a trimmed string changes nothing: what [handleSend] passes
    on is what [sendChat] sees after its own [trim]. *)
Lemma trim_idempotent (s : JsString) : trim (trim s) = trim s.
Proof.
  unfold trim.
  destruct (trimStart_head s) as [Hnil | (c & rest & Hs & Hc)].
  - rewrite Hnil. reflexivity.
  - rewrite Hs, (trimEnd_keep c rest Hc), (trimStart_keep _ _ Hc).
    rewrite <- (trimEnd_keep c rest Hc). apply trimEnd_idempotent.
Qed.

Lemma truthy_JStr (s : JsString) : truthy (JStr s) = true <-> s <> [].
Proof. destruct s; simpl; split; congruence. Qed.

(* ===================================================================== *)
(** * Web Storage                                                         *)
(* ===================================================================== *)

Lemma Storage_lookup_insert_eq (st : Storage) (k : string) (v : JsString) :
  <[k := v]> st !! k = Some v.
Proof. apply (lookup_insert_eq (items st)). Qed.

Lemma Storage_lookup_insert_ne (st : Storage) (k k' : string) (v : JsString) :
  k <> k' -> <[k := v]> st !! k' = st !! k'.
Proof. apply (lookup_insert_ne (items st)). Qed.



Lemma Storage_delete_insert_eq (st : Storage) (k : string) (v : JsString) :
  delete k (<[k := v]> st) = delete k st.
Proof.
  unfold delete, insert, Storage_delete, Storage_insert. cbn [items quota].
  f_equal. apply delete_insert_eq.
Qed.

Lemma Storage_delete_delete_eq (st : Storage) (k : string) :
  delete k (delete k st) = delete k st.
Proof.
  unfold delete, Storage_delete. cbn [items quota]. f_equal. apply delete_delete_eq.
Qed.

Lemma Storage_delete_id (st : Storage) (k : string) :
  st !! k = None -> delete k st = st.
Proof.
  intros Hnone. destruct st as [m q]. unfold delete, Storage_delete. cbn [items quota].
  f_equal. now apply delete_id.
Qed.

(* ===================================================================== *)
(** * The steps of a chat turn                                            *)
(* ===================================================================== *)

(** [sendChat] accepts a string that is non-empty after trimming and
    posts exactly [chat_body]. *)
Lemma sendChat_send_accepts (s : JsString) (conversationId : JsVal) (w : World) :
  trim s <> [] ->
  sendChat_send (JStr s) conversationId JUndefined w
  = (Ok (chat_request (JStr s) conversationId w), w).
Proof.
  intros Hs. unfold sendChat_send, bind.
  assert (Hne : s <> []) by (intros ->; now apply Hs).
  apply truthy_JStr in Hne. rewrite Hne.
  cbn [negb call_trim ret bind]. unfold bind, ret.
  apply truthy_JStr in Hs. rewrite Hs. cbn [negb].
  unfold chat_request, chat_body, api_post, api_request.
  destruct (truthy conversationId); reflexivity.
Qed.

(** What an accepted submit leaves behind, field by field. *)
Lemma handleSend_accepts (props : MessageInputProps) (w : World) :
  trim (value w) <> [] ->
  handleSend props w
  = {| auth := auth w;
       chat := {| ChatPage.convId := ChatPage.convId (chat w);
                  ChatPage.msgs := ChatPage.msgs (chat w)
                    ++ [ {| role := user_role; content := JStr (trim (value w)) |} ];
                  ChatPage.loading := true |};
       value := [];
       localStorage := localStorage w;
       pending := pending w
         ++ [ (chat_request (JStr (trim (value w))) (ChatPage.convId (chat w)) w,
               K_onSend) ] |}.
Proof.
  intros Hv. unfold handleSend.
  pose proof Hv as Ht. apply truthy_JStr in Ht. rewrite Ht. simpl.
  unfold onSend_send, bind, attempt. simpl.
  rewrite sendChat_send_accepts by (now rewrite trim_idempotent).
  reflexivity.
Qed.

Lemma GetV_total_again (v : JsVal) (p q : string) (x : JsVal) :
  GetV v p = Ok x -> exists y, GetV v q = Ok y.
Proof. destruct v; simpl; intros H; try discriminate; eauto. Qed.

(** Unfold the continuation of a settled request down to the monad. *)
Ltac js_unfold :=
  unfold exec, resume, callee_then, onSend_then, refresh_then,
    sendChat_then, me_then, try_finally, try_catch, bind, completion.

Section OnSendSettles.

Variables (w : World) (i : nat) (rq : Request).
Hypothesis in_flight : pending w !! i = Some (rq, K_onSend).

(** A failed exchange: only the transcript and the busy flag change. *)
Lemma settle_failed (o : Outcome) (e : JsVal) :
  exchange_error o = Some e ->
  settle i o w
  = {| auth := auth w;
       chat := {| ChatPage.convId := ChatPage.convId (chat w);
                  ChatPage.msgs := ChatPage.msgs (chat w) ++ [error_entry e];
                  ChatPage.loading := false |};
       value := value w;
       localStorage := localStorage w;
       pending := delete i (pending w) |}.
Proof.
  intros He. unfold settle. rewrite in_flight. js_unfold.
  destruct o as [response | e0]; simpl in *.
  - destruct (GetV response "data") as [res | e1] eqn:Hdata; simpl.
    + destruct (GetV res "conversation_id") as [c | e2] eqn:Hc; [discriminate|].
      injection He as <-. reflexivity.
    + injection He as <-. reflexivity.
  - injection He as <-. reflexivity.
Qed.

(** A resolved exchange: identifier held and stored, answer appended
    ([opt_chain res "answer"] is [res.answer], [res] being neither [null]
    nor [undefined] here). *)
Lemma settle_resolved (response res c : JsVal) :
  GetV response "data" = Ok res ->
  GetV res "conversation_id" = Ok c ->
  has_room "convId" (ToString c) (localStorage w) = true ->
  settle i (Fulfilled response) w
  = {| auth := auth w;
       chat := {| ChatPage.convId := c;
                  ChatPage.msgs := ChatPage.msgs (chat w)
                    ++ [ {| role := assistant_role; content := opt_chain res "answer" |} ];
                  ChatPage.loading := false |};
       value := value w;
       localStorage := <["convId"%string := ToString c]> (localStorage w);
       pending := delete i (pending w) |}.
Proof.
  intros Hdata Hc Hroom. unfold settle. rewrite in_flight. js_unfold. simpl.
  rewrite Hdata. simpl. rewrite Hc. simpl.
  unfold localStorage_setItem. cbn [localStorage]. rewrite Hroom.
  destruct (GetV_total_again _ _ "answer" _ Hc) as [a Ha].
  unfold opt_chain. rewrite Ha. reflexivity.
Qed.

(** An exchange whose identifier cannot be stored: it is held already
    when [setItem] throws, and the turn ends as a failed one. *)
Lemma settle_store_failed (response res c : JsVal) :
  GetV response "data" = Ok res ->
  GetV res "conversation_id" = Ok c ->
  has_room "convId" (ToString c) (localStorage w) = false ->
  settle i (Fulfilled response) w
  = {| auth := auth w;
       chat := {| ChatPage.convId := c;
                  ChatPage.msgs := ChatPage.msgs (chat w)
                    ++ [error_entry (QuotaExceededError "convId")];
                  ChatPage.loading := false |};
       value := value w;
       localStorage := localStorage w;
       pending := delete i (pending w) |}.
Proof.
  intros Hdata Hc Hroom. unfold settle. rewrite in_flight. js_unfold. simpl.
  rewrite Hdata. simpl. rewrite Hc. simpl.
  unfold localStorage_setItem. cbn [localStorage]. rewrite Hroom.
  reflexivity.
Qed.

Lemma exchange_error_None (o : Outcome) :
  exchange_error o = None ->
  exists response res c,
    o = Fulfilled response /\ GetV response "data" = Ok res
    /\ GetV res "conversation_id" = Ok c.
Proof.
  destruct o as [response | e]; simpl; [|discriminate].
  destruct (GetV response "data") as [res|] eqn:Hd; [|discriminate].
  destruct (GetV res "conversation_id") as [c|] eqn:Hc; [|discriminate].
  intros _. now exists response, res, c.
Qed.

(** Either way one assistant entry is appended and the request leaves. *)
Lemma settle_appends_one (o : Outcome) :
  exists a : Message,
    role a = assistant_role
    /\ ChatPage.msgs (chat (settle i o w)) = ChatPage.msgs (chat w) ++ [a]
    /\ pending (settle i o w) = delete i (pending w).
Proof.
  destruct (exchange_error o) as [e|] eqn:He.
  - rewrite (settle_failed o e He). exists (error_entry e). now cbn.
  - destruct (exchange_error_None o He) as (response & res & c & -> & Hd & Hc).
    destruct (has_room "convId" (ToString c) (localStorage w)) eqn:Hroom.
    + rewrite (settle_resolved response res c Hd Hc Hroom).
      exists {| role := assistant_role; content := opt_chain res "answer" |}.
      now cbn.
    + rewrite (settle_store_failed response res c Hd Hc Hroom).
      exists (error_entry (QuotaExceededError "convId")). now cbn.
Qed.

End OnSendSettles.

(** The [||] chain, choice by choice. *)
Lemma serverDetail_cases (e : JsVal) :
  serverDetail e
  = (if truthy (opt_chain (opt_chain (opt_chain e "response") "data") "detail")
     then opt_chain (opt_chain (opt_chain e "response") "data") "detail"
     else if truthy (opt_chain e "message") then opt_chain e "message"
          else JStr (lit "Chat error")).
Proof.
  unfold serverDetail, or_else.
  destruct (truthy (opt_chain (opt_chain (opt_chain e "response") "data") "detail")) eqn:Hd;
    cbv iota; rewrite ?Hd; reflexivity.
Qed.

(** The [||] chain tests truthiness: an empty detail gives way to the
    error's message, and a detail that is not a string is printed by
    [ToString] (a list of validation errors as [[object Object]]). *)
Example empty_detail_falls_back :
  serverDetail
    (JObj [("message"%string, JStr (lit "Network Error"));
           ("response"%string,
            JObj [("data"%string, JObj [("detail"%string, JStr [])])])])
  = JStr (lit "Network Error").
Proof. reflexivity. Qed.

Example structured_detail_is_printed :
  ToString
    (serverDetail
       (JObj [("message"%string, JStr (lit "Request failed with status code 422"));
              ("response"%string,
               JObj [("data"%string,
                      JObj [("detail"%string,
                             JArr [JObj [("msg"%string, JStr (lit "field required"))]])])])]))
  = lit "[object Object]".
Proof. reflexivity. Qed.

Example bare_rejection_uses_fallback :
  serverDetail JUndefined = JStr (lit "Chat error").
Proof. reflexivity. Qed.

(** A blank input: [handleSend] returns before calling [onSend]. *)
Lemma handleSend_blank (props : MessageInputProps) (w : World) :
  trim (value w) = [] -> handleSend props w = w.
Proof. intros Hv. unfold handleSend. now rewrite Hv. Qed.

(** [sendChat] refuses a missing message and a blank one alike, before
    any request is built. *)
Lemma sendChat_send_rejects (message conversationId where_ : JsVal) (w : World) :
  message = JUndefined \/ (exists s, message = JStr s /\ trim s = []) ->
  sendChat_send message conversationId where_ w
  = (Thrown (Error (lit "Message is required")), w).
Proof.
  intros [-> | (s & -> & Hs)]; [reflexivity|].
  unfold sendChat_send, bind. destruct s as [|c rest]; [reflexivity|].
  cbn [truthy negb call_trim ret]. unfold ret. rewrite Hs. reflexivity.
Qed.

(** The [disabled] prop never reaches [handleSend]. *)
Lemma handleSend_ignores_disabled (p q : MessageInputProps) (w : World) :
  handleSend p w = handleSend q w.
Proof. reflexivity. Qed.

(** ** Mounting and reloading *)


Lemma ChatPage_mount_frame (w : World) :
  localStorage (exec ChatPage_mount w) = localStorage w
  /\ pending (exec ChatPage_mount w) = map unmount (pending w)
  /\ auth (exec ChatPage_mount w) = auth w
  /\ value (exec ChatPage_mount w) = []
  /\ ChatPage.msgs (chat (exec ChatPage_mount w)) = ChatPage.msgs ChatPage.init
  /\ ChatPage.loading (chat (exec ChatPage_mount w)) = false.
Proof.
  unfold exec, ChatPage_mount, bind, localStorage_getItem. cbn [localStorage].
  destruct (localStorage w !! "convId") as [s|]; [|now cbn].
  destruct (truthy (JStr s)); now cbn.
Qed.

Lemma call_refresh_eq (w : World) :
  call_refresh w = set_pending (pending w ++ [(me_request w, K_refresh)]) w.
Proof. reflexivity. Qed.


(** ** [refresh] *)

(** The identity check settling: only the session changes. *)
Lemma settle_refresh_at (w : World) (before after : list (Request * Kont))
      (rq : Request) (o : Outcome) :
  pending w = before ++ (rq, K_refresh) :: after ->
  settle (length before) o w
  = {| auth := {| AuthProvider.user := refreshed_user o;
                  AuthProvider.loading := false |};
       chat := chat w; value := value w; localStorage := localStorage w;
       pending := before ++ after |}.
Proof.
  intros Hp. unfold settle. rewrite Hp, list_lookup_middle by reflexivity.
  rewrite delete_middle.
  js_unfold.
  destruct o as [response | e]; cbn; [|reflexivity].
  destruct (GetV response "data"); reflexivity.
Qed.

Lemma me_then_result (o : Outcome) (w : World) :
  me_then o w
  = (match o with
     | Fulfilled response => GetV response "data"
     | Rejected e => Thrown e
     end, w).
Proof.
  unfold me_then, bind, completion.
  destruct o as [response | e]; cbn; [|reflexivity].
  destruct (GetV response "data"); reflexivity.
Qed.

Lemma refreshed_user_Ok (o : Outcome) (w : World) (u : JsVal) :
  fst (me_then o w) = Ok u -> refreshed_user o = u.
Proof.
  rewrite me_then_result. cbn [fst]. unfold refreshed_user.
  destruct o as [response | e]; [|discriminate].
  now intros ->.
Qed.

Lemma refreshed_user_Thrown (o : Outcome) (w : World) (e : JsVal) :
  fst (me_then o w) = Thrown e -> refreshed_user o = JNull.
Proof.
  rewrite me_then_result. cbn [fst]. unfold refreshed_user.
  destruct o as [response | e0]; [|reflexivity].
  now intros ->.
Qed.

(** One [refresh()] from call to settlement. *)
Lemma refresh_round (w : World) (o : Outcome) :
  run w [Ev_refresh; Ev_settle (length (pending w)) o]
  = {| auth := {| AuthProvider.user := refreshed_user o;
                  AuthProvider.loading := false |};
       chat := chat w; value := value w;
       localStorage := localStorage w; pending := pending w |}.
Proof.
  cbn [run fold_left step]. rewrite call_refresh_eq.
  rewrite (settle_refresh_at _ (pending w) [] (me_request w) o) by reflexivity.
  cbn [set_pending chat value localStorage]. now rewrite app_nil_r.
Qed.

(** Two calls of [refresh()] in a row, both settling with [o]. *)
Lemma refresh_twice (w : World) (o : Outcome) :
  run w [Ev_refresh; Ev_refresh;
         Ev_settle (length (pending w)) o; Ev_settle (length (pending w)) o]
  = {| auth := {| AuthProvider.user := refreshed_user o;
                  AuthProvider.loading := false |};
       chat := chat w; value := value w;
       localStorage := localStorage w; pending := pending w |}.
Proof.
  cbn [run fold_left step]. rewrite !call_refresh_eq.
  rewrite (settle_refresh_at
             (set_pending _ (set_pending _ w)) (pending w)
             [(me_request w, K_refresh)] (me_request w) o)
    by (cbn [pending set_pending]; now rewrite <- app_assoc).
  cbn [set_pending chat value localStorage].
  rewrite (settle_refresh_at _ (pending w) [] (me_request w) o) by reflexivity.
  cbn [chat value localStorage]. now rewrite app_nil_r.
Qed.

(** A second [refresh()] called once the first has settled. *)
Lemma refresh_again (w : World) (o : Outcome) :
  run w [Ev_refresh; Ev_settle (length (pending w)) o;
         Ev_refresh; Ev_settle (length (pending w)) o]
  = {| auth := {| AuthProvider.user := refreshed_user o;
                  AuthProvider.loading := false |};
       chat := chat w; value := value w;
       localStorage := localStorage w; pending := pending w |}.
Proof.
  change (run w [Ev_refresh; Ev_settle (length (pending w)) o;
                 Ev_refresh; Ev_settle (length (pending w)) o])
    with (run (run w [Ev_refresh; Ev_settle (length (pending w)) o])
              [Ev_refresh; Ev_settle (length (pending w)) o]).
  rewrite (refresh_round w o).
  exact (refresh_round
           {| auth := {| AuthProvider.user := refreshed_user o;
                         AuthProvider.loading := false |};
              chat := chat w; value := value w;
              localStorage := localStorage w; pending := pending w |} o).
Qed.

(** Whether a value fits under a key does not depend on what the key
    holds already. *)
Lemma has_room_insert_same (k : string) (v v' : JsString) (st : Storage) :
  has_room k v (<[k := v']> st) = has_room k v st.
Proof.
  unfold has_room.
  change (<[k := v']> st)
    with {| items := <[k := v']> (items st); quota := quota st |}.
  cbn [items quota]. now rewrite insert_insert_eq.
Qed.

(** ** [login] *)

(** [login] after its [await], case by case. *)
Lemma login_then_cases (o : Outcome) (w : World) :
  login_then o w
  = match o with
    | Rejected e => (Thrown e, w)
    | Fulfilled response =>
        match GetV response "data" with
        | Thrown e => (Thrown e, w)
        | Ok data =>
            match GetV data "access_token" with
            | Thrown e => (Thrown e, w)
            | Ok token =>
                if has_room "access_token" (ToString token) (localStorage w)
                then (Ok data,
                      {| auth := auth w; chat := chat w; value := value w;
                         localStorage :=
                           <["access_token"%string := ToString token]> (localStorage w);
                         pending := pending w |})
                else (Thrown (QuotaExceededError "access_token"), w)
            end
        end
    end.
Proof.
  unfold login_then, bind, completion, await, ret, throw.
  destruct o as [response | e]; [|reflexivity].
  destruct (GetV response "data") as [data | e]; cbn; [|reflexivity].
  destruct (GetV data "access_token") as [token | e]; cbn; [|reflexivity].
  unfold localStorage_setItem.
  now destruct (has_room "access_token" (ToString token) (localStorage w)).
Qed.

(** An identifier of the documented type is stored as its text. *)
Lemma id_text_ToString (c : JsVal) (t : JsString) :
  id_text c = Some t -> ToString c = t.
Proof.
  destruct c as [| | b | n | s | elems | props]; cbn [id_text]; try discriminate.
  - destruct (safe_integer n); [|discriminate]. now intros [= <-].
  - now intros [= <-].
Qed.

(** A request of an unmounted [ChatPage] settling: no state of the
    mounted components changes. *)
Lemma settle_unmounted (w : World) (i : nat) (rq : Request) (o : Outcome) :
  pending w !! i = Some (rq, K_onSend_unmounted) ->
  auth (settle i o w) = auth w
  /\ chat (settle i o w) = chat w
  /\ value (settle i o w) = value w
  /\ pending (settle i o w) = delete i (pending w).
Proof.
  intros Hp. unfold settle. rewrite Hp. cbn [resume callee_then].
  unfold exec, unmounted.
  destruct (onSend_then (sendChat_then o) (set_pending (delete i (pending w)) w))
    as [r w'].
  now cbn.
Qed.

(** A turn left behind by an earlier instance of the view resolves
    after the view has mounted again: the new instance keeps its empty
    transcript and holds no identifier, and the identifier is stored all
    the same. *)
Example unmounted_turn_reaches_only_the_storage :
  chat (run busy_chat [Ev_open_chat; Ev_settle 1 (Fulfilled reply_abc123)])
  = ChatPage.init
  /\ localStorage (run busy_chat [Ev_open_chat; Ev_settle 1 (Fulfilled reply_abc123)])
       !! "convId"
     = Some (lit "abc123")
  /\ chats_in_flight (run busy_chat [Ev_open_chat]) = [].
Proof. split; [|split]; vm_compute; reflexivity. Qed.

(* ===================================================================== *)
(** * Invariants of the chat view along any run                           *)
(* ===================================================================== *)

Lemma count_app (f : Message -> bool) (l1 l2 : list Message) :
  count f (l1 ++ l2) = (count f l1 + count f l2)%nat.
Proof. unfold count. now rewrite List.filter_app, length_app. Qed.

Lemma chats_in_flight_length (w : World) :
  length (chats_in_flight w) = length (List.filter is_chat (pending w)).
Proof. unfold chats_in_flight. apply length_map. Qed.

Lemma pending_split (w : World) (i : nat) (x : Request * Kont) :
  pending w !! i = Some x ->
  exists before after, pending w = before ++ x :: after /\ i = length before.
Proof. intros H. now apply list_elem_of_split_length in H. Qed.

(** What one event does to the transcript and to the chat requests in
    flight, as long as the view stays mounted: nothing, or one user entry
    with one more request, or one assistant entry with one request fewer. *)
Lemma step_turns (w : World) (ev : Event) :
  keeps_view ev = true ->
  (ChatPage.msgs (chat (step w ev)) = ChatPage.msgs (chat w)
   /\ length (chats_in_flight (step w ev)) = length (chats_in_flight w))
  \/ (exists m, role m = user_role
      /\ ChatPage.msgs (chat (step w ev)) = ChatPage.msgs (chat w) ++ [m]
      /\ length (chats_in_flight (step w ev)) = S (length (chats_in_flight w)))
  \/ (exists m, role m = assistant_role
      /\ ChatPage.msgs (chat (step w ev)) = ChatPage.msgs (chat w) ++ [m]
      /\ S (length (chats_in_flight (step w ev))) = length (chats_in_flight w)).
Proof.
  intros Hev. rewrite !chats_in_flight_length.
  destruct ev as [s | | i o | | |]; try discriminate; cbn [step].
  - left. now split.
  - destruct (trim (value w)) as [|c rest] eqn:Hv.
    + left. now rewrite handleSend_blank.
    + right; left. rewrite handleSend_accepts by (rewrite Hv; discriminate).
      eexists. split; [|split]; [|reflexivity|]; [reflexivity|].
      cbn [pending]. rewrite List.filter_app, length_app. cbn. lia.
  - destruct (pending w !! i) as [[rq k]|] eqn:Hp.
    + destruct (pending_split w i _ Hp) as (before & after & Hw & ->).
      destruct k.
      * right; right.
        destruct (settle_appends_one w _ rq Hp o) as (m & Hr & -> & ->).
        exists m. split; [exact Hr|]. split; [reflexivity|].
        rewrite Hw, delete_middle, !List.filter_app, !length_app.
        cbn. lia.
      * left. rewrite (settle_refresh_at w before after rq o Hw).
        split; [reflexivity|].
        cbn [pending]. rewrite Hw, !List.filter_app, !length_app. cbn. lia.
      * left. destruct (settle_unmounted w _ rq o Hp) as (_ & -> & _ & ->).
        split; [reflexivity|].
        rewrite Hw, delete_middle, !List.filter_app, !length_app. cbn. lia.
    + left. unfold settle. now rewrite Hp.
  - left. rewrite call_refresh_eq. split; [reflexivity|].
    cbn [pending set_pending]. rewrite List.filter_app, length_app. cbn. lia.
  - left. now split.
Qed.

(** X6.  While the chat view stays mounted the transcript only grows at
    its end: no event removes or rewrites an entry. *)
Lemma run_appends (evs : list Event) (w : World) :
  forallb keeps_view evs = true ->
  exists added, ChatPage.msgs (chat (run w evs)) = ChatPage.msgs (chat w) ++ added.
Proof.
  revert w. induction evs as [|ev evs IH]; intros w Hevs.
  - exists []. cbn. now rewrite app_nil_r.
  - cbn in Hevs. apply andb_true_iff in Hevs as [Hev Hevs].
    destruct (IH (step w ev) Hevs) as [added Hadded].
    cbn [run fold_left] in *. unfold run in Hadded. rewrite Hadded.
    destruct (step_turns w ev Hev) as [[-> _] | [(m & _ & -> & _) | (m & _ & -> & _)]].
    + now exists added.
    + exists (m :: added). now rewrite <- app_assoc.
    + exists (m :: added). now rewrite <- app_assoc.
Qed.

(** X7.  Every user entry is matched by exactly one assistant entry or
    one request still in flight: along any run the number of assistant
    entries plus the number of chat requests in flight grows exactly as
    the number of user entries. *)
Lemma run_turns_balance (evs : list Event) (w : World) :
  forallb keeps_view evs = true ->
  (count is_assistant (ChatPage.msgs (chat (run w evs)))
   + length (chats_in_flight (run w evs))
   + count is_user (ChatPage.msgs (chat w))
   = count is_assistant (ChatPage.msgs (chat w))
     + length (chats_in_flight w)
     + count is_user (ChatPage.msgs (chat (run w evs))))%nat.
Proof.
  revert w. induction evs as [|ev evs IH]; intros w Hevs; [reflexivity|].
  cbn in Hevs. apply andb_true_iff in Hevs as [Hev Hevs].
  specialize (IH (step w ev) Hevs). cbn [run fold_left] in *. unfold run in IH.
  destruct (step_turns w ev Hev)
    as [[Hm Hc] | [(m & Hr & Hm & Hc) | (m & Hr & Hm & Hc)]];
    rewrite Hm in IH; rewrite ?count_app in IH.
  - lia.
  - assert (count is_assistant [m] = 0%nat /\ count is_user [m] = 1%nat) as [Ha Hu]
        by (unfold count, is_assistant, is_user; cbn; now rewrite Hr).
    lia.
  - assert (count is_assistant [m] = 1%nat /\ count is_user [m] = 0%nat) as [Ha Hu]
        by (unfold count, is_assistant, is_user; cbn; now rewrite Hr).
    lia.
Qed.

(* ===================================================================== *)
(** * The turn exchange                                                   *)
(* ===================================================================== *)

(** C1.  A submit of a message that is non-empty after trimming appends
    exactly one [{ role: "user", content: text }] entry at once, with its
    request dispatched and still in flight; whenever a request of
    [onSend] settles, fulfilled or rejected, exactly one assistant entry
    is appended and exactly that request leaves the set in flight; so the
    submit and the settlement of its request add to the transcript the
    user entry and one assistant entry, no more and no fewer. *)
Theorem submit_one_user_entry_then_one_assistant_entry
        (props : MessageInputProps) (w : World) :
  trim (value w) <> [] ->
  ChatPage.msgs (chat (handleSend props w))
  = ChatPage.msgs (chat w)
      ++ [ {| role := user_role; content := JStr (trim (value w)) |} ]
  /\ pending (handleSend props w)
     = pending w
         ++ [ (chat_request (JStr (trim (value w))) (ChatPage.convId (chat w)) w,
               K_onSend) ]
  /\ (forall (w' : World) (i : nat) (rq : Request) (o : Outcome),
         pending w' !! i = Some (rq, K_onSend) ->
         exists a : Message,
           role a = assistant_role
           /\ ChatPage.msgs (chat (settle i o w')) = ChatPage.msgs (chat w') ++ [a]
           /\ pending (settle i o w') = delete i (pending w'))
  /\ (forall o : Outcome,
         exists a : Message,
           role a = assistant_role
           /\ ChatPage.msgs
                (chat (settle (length (pending w)) o (handleSend props w)))
              = ChatPage.msgs (chat w)
                  ++ [ {| role := user_role; content := JStr (trim (value w)) |}; a ]
           /\ pending (settle (length (pending w)) o (handleSend props w))
              = pending w).
Proof.
  intros Hv. rewrite (handleSend_accepts props w Hv). cbn [chat pending ChatPage.msgs].
  split; [reflexivity|]. split; [reflexivity|].
  split.
  { intros w' i rq o Hp. exact (settle_appends_one w' i rq Hp o). }
  intros o.
  match goal with
  | |- context [settle _ o ?w1] =>
      destruct (settle_appends_one w1 (length (pending w))
                  (chat_request (JStr (trim (value w))) (ChatPage.convId (chat w)) w)
                  (list_lookup_middle _ _ _ _ eq_refl) o)
        as (a & Hr & Hm & Hq)
  end.
  exists a. rewrite Hm, Hq. cbn [chat pending ChatPage.msgs].
  split; [exact Hr|]. split.
  - now rewrite <- app_assoc.
  - now rewrite delete_middle, app_nil_r.
Qed.

Lemma submit_one_user_entry_then_one_assistant_entry_witness :
  trim (value typed_chat) <> []
  /\ ChatPage.msgs (chat busy_chat)
     = ChatPage.msgs (chat typed_chat)
         ++ [ {| role := user_role; content := JStr (lit "cozy fantasy") |} ].
Proof.
  split; [vm_compute; discriminate|].
  apply (submit_one_user_entry_then_one_assistant_entry
           (ChatPage_props typed_chat) typed_chat).
  vm_compute; discriminate.
Defined.

(** C3, as the claim words it, fails: a detail that is present but empty
    is passed over.  For a rejection whose [detail] is the empty string
    and whose [message] is ["Network Error"], the claim asks for the
    entry [U+26A0 U+FE0F U+0020] followed by the detail, that is by
    nothing; the entry appended carries the message instead. *)
Lemma failed_exchange_empty_detail_is_passed_over :
  opt_chain (opt_chain (opt_chain empty_detail_error "response") "data") "detail" = JStr []
  /\ ChatPage.msgs (chat (settle 1 (Rejected empty_detail_error) busy_chat))
     <> ChatPage.msgs (chat busy_chat)
          ++ [ {| role := assistant_role;
                  content := JStr ([0x26A0; 0xFE0F; 0x20]%N
                                     ++ ToString (claimed_reason empty_detail_error)) |} ]
  /\ ChatPage.msgs (chat (settle 1 (Rejected empty_detail_error) busy_chat))
     = ChatPage.msgs (chat busy_chat)
         ++ [ {| role := assistant_role;
                 content := JStr ([0x26A0; 0xFE0F; 0x20]%N ++ lit "Network Error") |} ].
Proof.
  split; [reflexivity|]. split; [|reflexivity].
  intros H. apply app_inj_1 in H as [_ H]; [|reflexivity].
  vm_compute in H. discriminate.
Qed.

(** C3, amended.  For every failed turn (the [try] block of [onSend]
    throwing [e]) one assistant entry is appended and no earlier entry,
    the optimistic user entry among them, is moved or changed.  Its
    content is the code units U+26A0 U+FE0F U+0020 followed by the
    reason, the reason being the detail supplied by the server if it is
    truthy, else the message of the error if it is truthy, else
    ["Chat error"]: a non-empty string is appended as it is, a non-zero
    safe integer as its decimal numeral, a plain object as
    [[object Object]], and any other value that [prints_faithfully] in
    its string form.  With the backend detail ["conversation not found"]
    the entry reads exactly the prefix followed by that text. *)
Theorem failed_exchange_appends_warning_entry
        (w : World) (i : nat) (rq : Request) (o : Outcome) (e detail message : JsVal) :
  pending w !! i = Some (rq, K_onSend) ->
  turn_error o w = Some e ->
  detail = opt_chain (opt_chain (opt_chain e "response") "data") "detail" ->
  message = opt_chain e "message" ->
  (exists text : JsString,
      ChatPage.msgs (chat (settle i o w))
      = ChatPage.msgs (chat w)
          ++ [ {| role := assistant_role;
                  content := JStr ([0x26A0; 0xFE0F; 0x20]%N ++ text) |} ])
  /\ (forall j m,
         ChatPage.msgs (chat w) !! j = Some m ->
         ChatPage.msgs (chat (settle i o w)) !! j = Some m)
  /\ (forall d : JsString,
         detail = JStr d -> d <> [] ->
         ChatPage.msgs (chat (settle i o w))
         = ChatPage.msgs (chat w)
             ++ [ {| role := assistant_role;
                     content := JStr ([0x26A0; 0xFE0F; 0x20]%N ++ d) |} ])
  /\ (forall n : Z,
         detail = JNum n -> n <> 0 -> safe_integer n = true ->
         ChatPage.msgs (chat (settle i o w))
         = ChatPage.msgs (chat w)
             ++ [ {| role := assistant_role;
                     content := JStr ([0x26A0; 0xFE0F; 0x20]%N
                                        ++ lit (NilZero.string_of_int (Z.to_int n))) |} ])
  /\ (forall props : list (string * JsVal),
         detail = JObj props -> has_own props "toString" = false ->
         ChatPage.msgs (chat (settle i o w))
         = ChatPage.msgs (chat w)
             ++ [ {| role := assistant_role;
                     content := JStr ([0x26A0; 0xFE0F; 0x20]%N ++ lit "[object Object]") |} ])
  /\ (truthy detail = true -> prints_faithfully detail = true ->
      ChatPage.msgs (chat (settle i o w))
      = ChatPage.msgs (chat w)
          ++ [ {| role := assistant_role;
                  content := JStr ([0x26A0; 0xFE0F; 0x20]%N ++ ToString detail) |} ])
  /\ (forall m : JsString,
         truthy detail = false -> message = JStr m -> m <> [] ->
         ChatPage.msgs (chat (settle i o w))
         = ChatPage.msgs (chat w)
             ++ [ {| role := assistant_role;
                     content := JStr ([0x26A0; 0xFE0F; 0x20]%N ++ m) |} ])
  /\ (truthy detail = false -> truthy message = true ->
      prints_faithfully message = true ->
      ChatPage.msgs (chat (settle i o w))
      = ChatPage.msgs (chat w)
          ++ [ {| role := assistant_role;
                  content := JStr ([0x26A0; 0xFE0F; 0x20]%N ++ ToString message) |} ])
  /\ (truthy detail = false -> truthy message = false ->
      ChatPage.msgs (chat (settle i o w))
      = ChatPage.msgs (chat w)
          ++ [ {| role := assistant_role;
                  content := JStr ([0x26A0; 0xFE0F; 0x20]%N ++ lit "Chat error") |} ])
  /\ (detail = JStr (lit "conversation not found") ->
      last (ChatPage.msgs (chat (settle i o w)))
      = Some {| role := assistant_role;
                content := JStr ([0x26A0; 0xFE0F; 0x20]%N
                                   ++ lit "conversation not found") |}).
Proof.
  intros Hp He Hdetail Hmessage.
  assert (Hsettle : ChatPage.msgs (chat (settle i o w))
                    = ChatPage.msgs (chat w) ++ [error_entry e]).
  { unfold turn_error in He.
    destruct (exchange_error o) as [e0|] eqn:Hx.
    - injection He as <-. now rewrite (settle_failed w i rq Hp o e0 Hx).
    - destruct (exchange_error_None o Hx) as (response & res & c & -> & Hd & Hc).
      unfold response_id in He. rewrite Hd, Hc in He.
      destruct (has_room "convId" (ToString c) (localStorage w)) eqn:Hroom;
        [discriminate|].
      injection He as <-.
      now rewrite (settle_store_failed w i rq Hp response res c Hd Hc Hroom). }
  rewrite Hsettle. unfold error_entry, warning_prefix.
  rewrite serverDetail_cases, <- Hdetail, <- Hmessage.
  split; [eexists; reflexivity|].
  split.
  { intros j m Hj. rewrite lookup_app_l; [exact Hj|]. now apply lookup_lt_Some in Hj. }
  split.
  { intros d -> Hd. apply truthy_JStr in Hd. now rewrite Hd. }
  split.
  { intros n -> Hn _. cbn [truthy]. apply Z.eqb_neq in Hn. rewrite Hn. reflexivity. }
  split.
  { now intros props -> _. }
  split.
  { intros Ht _. now rewrite Ht. }
  split.
  { intros m Hf -> Hm. apply truthy_JStr in Hm. now rewrite Hf, Hm. }
  split.
  { intros Hf Ht _. now rewrite Hf, Ht. }
  split.
  { intros Hf Hf'. now rewrite Hf, Hf'. }
  intros ->. now rewrite last_snoc.
Qed.

Lemma failed_exchange_appends_warning_entry_witness :
  pending busy_chat !! 1%nat
  = Some (chat_request (JStr (lit "cozy fantasy")) JUndefined busy_chat, K_onSend)
  /\ turn_error (Rejected not_found_error) busy_chat = Some not_found_error
  /\ last (ChatPage.msgs (chat (settle 1 (Rejected not_found_error) busy_chat)))
     = Some {| role := assistant_role;
               content := JStr ([0x26A0; 0xFE0F; 0x20]%N
                                  ++ lit "conversation not found") |}
  /\ ChatPage.msgs
       (chat (settle 1
                (Rejected (JObj [("response"%string,
                                  JObj [("data"%string,
                                         JObj [("detail"%string, JNum 422)])])]))
                busy_chat))
     = ChatPage.msgs (chat busy_chat)
         ++ [ {| role := assistant_role;
                 content := JStr [0x26A0; 0xFE0F; 0x20; 0x34; 0x32; 0x32]%N |} ].
Proof.
  split; [reflexivity|]. split; [reflexivity|]. split.
  - apply (failed_exchange_appends_warning_entry busy_chat 1
             (chat_request (JStr (lit "cozy fantasy")) JUndefined busy_chat)
             (Rejected not_found_error) not_found_error
             (JStr (lit "conversation not found"))
             (JStr (lit "Request failed with status code 404")));
      reflexivity.
  - destruct (failed_exchange_appends_warning_entry busy_chat 1
                (chat_request (JStr (lit "cozy fantasy")) JUndefined busy_chat)
                (Rejected (JObj [("response"%string,
                                  JObj [("data"%string,
                                         JObj [("detail"%string, JNum 422)])])]))
                (JObj [("response"%string,
                       JObj [("data"%string, JObj [("detail"%string, JNum 422)])])])
                (JNum 422) JUndefined eq_refl eq_refl eq_refl eq_refl)
      as (_ & _ & _ & Hnum & _).
    apply (Hnum 422); [reflexivity | discriminate | reflexivity].
Defined.

(** C6.  With an input that is empty or blank after trimming, a submit
    changes nothing: no entry, no request, the whole state as before.
    And [sendChat] called with a missing message or with a string that is
    empty after trimming throws ["Message is required"] on the spot,
    leaving the state, and so the requests in flight, as they were. *)
Theorem blank_submit_is_noop_and_sendChat_validates :
  (forall (props : MessageInputProps) (w : World),
      trim (value w) = [] -> handleSend props w = w)
  /\ (forall (message conversationId where_ : JsVal) (w : World),
         message = JUndefined \/ (exists s, message = JStr s /\ trim s = []) ->
         sendChat_send message conversationId where_ w
         = (Thrown (Error (lit "Message is required")), w)).
Proof.
  split.
  - exact handleSend_blank.
  - exact sendChat_send_rejects.
Qed.

Lemma blank_submit_is_noop_and_sendChat_validates_witness :
  trim (lit "   ") = []
  /\ handleSend (ChatPage_props fresh_chat) (exec (setValue (lit "   ")) fresh_chat)
     = exec (setValue (lit "   ")) fresh_chat
  /\ sendChat_send (JStr (lit "   ")) JUndefined JUndefined fresh_chat
     = (Thrown (Error (lit "Message is required")), fresh_chat).
Proof.
  split; [reflexivity|]. split.
  - apply (proj1 blank_submit_is_noop_and_sendChat_validates). reflexivity.
  - apply (proj2 blank_submit_is_noop_and_sendChat_validates).
    right. exists (lit "   "). split; reflexivity.
Defined.

(** C10, as the claim words it, fails when it is the storing of the
    identifier that throws: [setConvId] has run by then.  In a browser
    whose storage is full, a turn whose response brings ["abc123"]
    fails on [setItem], with the held identifier already advanced from
    [undefined] to ["abc123"] and the storage as it was. *)
Lemma failed_turn_advances_held_identifier :
  pending busy_chat_full_store !! 1%nat
  = Some (chat_request (JStr (lit "cozy fantasy")) JUndefined busy_chat_full_store,
          K_onSend)
  /\ turn_error (Fulfilled reply_abc123) busy_chat_full_store
     = Some (QuotaExceededError "convId")
  /\ ChatPage.convId (chat busy_chat_full_store) = JUndefined
  /\ ChatPage.convId (chat (settle 1 (Fulfilled reply_abc123) busy_chat_full_store))
     = JStr (lit "abc123")
  /\ ChatPage.convId (chat (settle 1 (Fulfilled reply_abc123) busy_chat_full_store))
     <> ChatPage.convId (chat busy_chat_full_store)
  /\ localStorage (settle 1 (Fulfilled reply_abc123) busy_chat_full_store)
     = localStorage busy_chat_full_store.
Proof.
  split; [reflexivity|]. split; [vm_compute; reflexivity|]. split; [reflexivity|].
  split; [vm_compute; reflexivity|]. split; [vm_compute; discriminate|].
  vm_compute; reflexivity.
Qed.

(** C10, amended.  A failed turn (the [try] block of [onSend] throwing)
    leaves the whole storage, the persisted identifier included, as it
    was, and still clears the busy flag; besides the flag, the
    transcript and the set of requests in flight, nothing changes when
    the turn fails before the identifier of the response is read (the
    request is rejected, or the response has no body): the held
    identifier is then as it was.  When it is the storing that throws,
    the held identifier is the one the response brought. *)
Theorem failed_turn_keeps_conversation_identity
        (w : World) (i : nat) (rq : Request) (o : Outcome) (e : JsVal) :
  pending w !! i = Some (rq, K_onSend) ->
  turn_error o w = Some e ->
  localStorage (settle i o w) = localStorage w
  /\ localStorage (settle i o w) !! "convId" = localStorage w !! "convId"
  /\ ChatPage.loading (chat (settle i o w)) = false
  /\ auth (settle i o w) = auth w
  /\ value (settle i o w) = value w
  /\ (response_id o = None ->
      ChatPage.convId (chat (settle i o w)) = ChatPage.convId (chat w))
  /\ (forall c : JsVal,
         response_id o = Some c ->
         ChatPage.convId (chat (settle i o w)) = c).
Proof.
  intros Hp He. unfold turn_error in He.
  destruct (exchange_error o) as [e0|] eqn:Hx.
  - rewrite (settle_failed w i rq Hp o e0 Hx). cbn.
    repeat split; try reflexivity.
    intros c Hc. exfalso. unfold exchange_error, response_id in *.
    destruct o as [response | e1]; [|discriminate].
    destruct (GetV response "data") as [res | e1]; [|discriminate].
    destruct (GetV res "conversation_id"); discriminate.
  - destruct (exchange_error_None o Hx) as (response & res & c & -> & Hd & Hc).
    unfold response_id in *. rewrite Hd, Hc in *.
    destruct (has_room "convId" (ToString c) (localStorage w)) eqn:Hroom;
      [discriminate|].
    rewrite (settle_store_failed w i rq Hp response res c Hd Hc Hroom). cbn.
    repeat split; try reflexivity; try discriminate.
    now intros c' [= <-].
Qed.

Lemma failed_turn_keeps_conversation_identity_witness :
  (pending busy_chat !! 1%nat
   = Some (chat_request (JStr (lit "cozy fantasy")) JUndefined busy_chat, K_onSend)
   /\ turn_error (Fulfilled JNull) busy_chat = Some (TypeError_read JNull "data")
   /\ response_id (Fulfilled JNull) = None
   /\ ChatPage.convId (chat (settle 1 (Fulfilled JNull) busy_chat))
      = ChatPage.convId (chat busy_chat)
   /\ ChatPage.loading (chat (settle 1 (Fulfilled JNull) busy_chat)) = false)
  /\ (pending busy_chat_full_store !! 1%nat
      = Some (chat_request (JStr (lit "cozy fantasy")) JUndefined busy_chat_full_store,
              K_onSend)
      /\ turn_error (Fulfilled reply_abc123) busy_chat_full_store
         = Some (QuotaExceededError "convId")
      /\ response_id (Fulfilled reply_abc123) = Some (JStr (lit "abc123"))
      /\ localStorage (settle 1 (Fulfilled reply_abc123) busy_chat_full_store)
           !! "convId"
         = None
      /\ ChatPage.loading (chat (settle 1 (Fulfilled reply_abc123) busy_chat_full_store))
         = false).
Proof.
  split.
  - split; [reflexivity|]. split; [reflexivity|]. split; [reflexivity|].
    destruct (failed_turn_keeps_conversation_identity busy_chat 1
                (chat_request (JStr (lit "cozy fantasy")) JUndefined busy_chat)
                (Fulfilled JNull) (TypeError_read JNull "data")
                eq_refl eq_refl) as (_ & _ & Hl & _ & _ & Hc & _).
    split; [exact (Hc eq_refl) | exact Hl].
  - split; [reflexivity|]. split; [vm_compute; reflexivity|]. split; [reflexivity|].
    destruct (failed_turn_keeps_conversation_identity busy_chat_full_store 1
                (chat_request (JStr (lit "cozy fantasy")) JUndefined busy_chat_full_store)
                (Fulfilled reply_abc123) (QuotaExceededError "convId")
                eq_refl ltac:(vm_compute; reflexivity)) as (_ & Hs & Hl & _).
    split; [rewrite Hs; reflexivity | exact Hl].
Defined.

(** C2.  The claim asks that, while a turn is pending, the input be
    disabled so that no second chat request can be dispatched.
    [ChatPage] does pass [disabled={loading}], and the flag is set while
    the first request is in flight, but [MessageInput] never reads the
    prop: a second submit goes through and two chat requests are in
    flight at once. *)
Theorem second_submit_dispatches_while_busy :
  ChatPage.loading (chat busy_chat) = true
  /\ disabled (ChatPage_props busy_chat) = true
  /\ map rq_body (chats_in_flight busy_chat)
     = [ chat_body (JStr (lit "cozy fantasy")) JUndefined ]
  /\ map rq_body
       (chats_in_flight
          (run busy_chat [Ev_change (lit "dystopian classic"); Ev_send]))
     = [ chat_body (JStr (lit "cozy fantasy")) JUndefined;
         chat_body (JStr (lit "dystopian classic")) JUndefined ].
Proof. repeat split; reflexivity. Qed.

(* ===================================================================== *)
(** * Conversation continuity                                             *)
(* ===================================================================== *)



(* ===================================================================== *)
(** * Session                                                             *)
(* ===================================================================== *)

(** C5.  Call [refresh()] and let its identity check settle.  If [me()]
    returned a profile, [user] is that profile; if it threw, [user] is
    [null]; either way [loading] ends [false] and nothing else has
    changed.  Calling [refresh()] twice in a row, the second call made
    before or after the first check settles, and settling both checks
    with the same outcome ends in the same state as calling it once. *)
Theorem refresh_sets_user_clears_loading_idempotent (w : World) (o : Outcome) :
  (forall u : JsVal,
      fst (me_then o w) = Ok u ->
      AuthProvider.user
        (auth (run w [Ev_refresh; Ev_settle (length (pending w)) o])) = u)
  /\ (forall e : JsVal,
         fst (me_then o w) = Thrown e ->
         AuthProvider.user
           (auth (run w [Ev_refresh; Ev_settle (length (pending w)) o])) = JNull)
  /\ AuthProvider.loading
       (auth (run w [Ev_refresh; Ev_settle (length (pending w)) o])) = false
  /\ (chat (run w [Ev_refresh; Ev_settle (length (pending w)) o]) = chat w
      /\ value (run w [Ev_refresh; Ev_settle (length (pending w)) o]) = value w
      /\ localStorage (run w [Ev_refresh; Ev_settle (length (pending w)) o])
         = localStorage w
      /\ pending (run w [Ev_refresh; Ev_settle (length (pending w)) o]) = pending w)
  /\ run w [Ev_refresh; Ev_refresh;
            Ev_settle (length (pending w)) o; Ev_settle (length (pending w)) o]
     = run w [Ev_refresh; Ev_settle (length (pending w)) o]
  /\ run w [Ev_refresh; Ev_settle (length (pending w)) o;
            Ev_refresh; Ev_settle (length (pending w)) o]
     = run w [Ev_refresh; Ev_settle (length (pending w)) o].
Proof.
  rewrite refresh_twice, refresh_again, refresh_round.
  cbn [auth chat value localStorage pending AuthProvider.user AuthProvider.loading].
  split; [intros u Hu; exact (refreshed_user_Ok o w u Hu)|].
  split; [intros e He; exact (refreshed_user_Thrown o w e He)|].
  split; [reflexivity|]. split; [now repeat split|]. now split.
Qed.

Lemma refresh_sets_user_clears_loading_idempotent_witness :
  fst (me_then (Fulfilled (JObj [("data"%string, profile_u)])) fresh_chat) = Ok profile_u
  /\ AuthProvider.user
       (auth (run fresh_chat
                  [Ev_refresh;
                   Ev_settle (length (pending fresh_chat))
                             (Fulfilled (JObj [("data"%string, profile_u)]))]))
     = profile_u.
Proof.
  split; [reflexivity|].
  apply (proj1 (refresh_sets_user_clears_loading_idempotent fresh_chat
                  (Fulfilled (JObj [("data"%string, profile_u)])))).
  reflexivity.
Defined.

(** C7.  When [login(email, password)] succeeds and returns [data], the
    token [data.access_token] is already stored under [access_token] in
    the state in which [login] returns, [data] being the whole response
    body.  The [me()] issued next carries that token as its bearer
    credential, and succeeds with any backend that answers the identity
    request bearing that token. *)
Theorem login_stores_token_before_returning
        (w : World) (response data : JsVal) :
  fst (login_then (Fulfilled response) w) = Ok data ->
  exists token : JsVal,
    GetV response "data" = Ok data
    /\ GetV data "access_token" = Ok token
    /\ login_then (Fulfilled response) w
       = (Ok data,
          {| auth := auth w; chat := chat w; value := value w;
             localStorage := <["access_token"%string := ToString token]> (localStorage w);
             pending := pending w |})
    /\ fst (me_send (snd (login_then (Fulfilled response) w)))
       = Ok {| rq_method := GET; rq_url := "/auth/me"; rq_body := JUndefined;
               rq_bearer := Some (ToString token) |}
    /\ forall backend : Request -> Outcome,
         (forall rq : Request,
             rq_url rq = "/auth/me"%string ->
             rq_bearer rq = Some (ToString token) ->
             exists profile, backend rq = Fulfilled (JObj [("data"%string, profile)])) ->
         exists profile : JsVal,
           fst (me_then (backend (me_request (snd (login_then (Fulfilled response) w))))
                        (snd (login_then (Fulfilled response) w)))
           = Ok profile.
Proof.
  rewrite login_then_cases.
  destruct (GetV response "data") as [d|] eqn:Hd; [|discriminate].
  destruct (GetV d "access_token") as [token|] eqn:Ht; [|discriminate].
  destruct (has_room "access_token" (ToString token) (localStorage w)); [|discriminate].
  cbn [fst snd]. intros [= ->]. exists token.
  split; [reflexivity|]. split; [exact Ht|]. split; [reflexivity|].
  split.
  { unfold me_send, api_get, api_request. cbn [fst localStorage].
    now rewrite Storage_lookup_insert_eq. }
  intros backend Hback.
  destruct (Hback (me_request
                     {| auth := auth w; chat := chat w; value := value w;
                        localStorage :=
                          <["access_token"%string := ToString token]> (localStorage w);
                        pending := pending w |}))
    as [profile Hprofile].
  - reflexivity.
  - unfold me_request. cbn [rq_bearer localStorage]. apply Storage_lookup_insert_eq.
  - exists profile. rewrite Hprofile. reflexivity.
Qed.

Lemma login_stores_token_before_returning_witness :
  fst (login_then (Fulfilled login_ok) fresh_chat)
  = Ok (JObj [("access_token"%string, JStr (lit "tok-1"));
              ("token_type"%string, JStr (lit "bearer"))])
  /\ (forall rq : Request,
         rq_url rq = "/auth/me"%string ->
         rq_bearer rq = Some (lit "tok-1") ->
         exists profile,
           one_token_backend rq = Fulfilled (JObj [("data"%string, profile)]))
  /\ localStorage (snd (login_then (Fulfilled login_ok) fresh_chat))
       !! "access_token"
     = Some (lit "tok-1")
  /\ exists profile : JsVal,
       fst (me_then (one_token_backend
                       (me_request (snd (login_then (Fulfilled login_ok) fresh_chat))))
                    (snd (login_then (Fulfilled login_ok) fresh_chat)))
       = Ok profile.
Proof.
  assert (Hback : forall rq : Request,
             rq_url rq = "/auth/me"%string ->
             rq_bearer rq = Some (lit "tok-1") ->
             exists profile,
               one_token_backend rq = Fulfilled (JObj [("data"%string, profile)])).
  { intros rq _ Hb. exists profile_u. unfold one_token_backend. rewrite Hb.
    now destruct (decide (lit "tok-1" = lit "tok-1")). }
  split; [reflexivity|]. split; [exact Hback|].
  destruct (login_stores_token_before_returning fresh_chat login_ok
              (JObj [("access_token"%string, JStr (lit "tok-1"));
                     ("token_type"%string, JStr (lit "bearer"))]) eq_refl)
    as (token & _ & Htok & Hlogin & _ & Hme).
  injection Htok as <-.
  split.
  - rewrite Hlogin. cbn [snd localStorage]. apply Storage_lookup_insert_eq.
  - apply (Hme one_token_backend). exact Hback.
Defined.

(** C8.  The route guard is a function of the session state alone, with
    three cases: while [loading], the waiting indicator and no
    navigation; with [loading] false and [user] [null], a redirect to
    [/login] replacing the history entry, the children not rendered; with
    a user present, the children as given.  Every state falls under one
    of the three results. *)
Theorem ProtectedRoute_three_cases
        (C : Type) (children : C) (ctx : AuthProvider.State) :
  (AuthProvider.loading ctx = true ->
   ProtectedRoute children ctx = Loading_div)
  /\ (AuthProvider.loading ctx = false ->
      AuthProvider.user ctx = JNull ->
      ProtectedRoute children ctx = Navigate "/login" true)
  /\ (AuthProvider.loading ctx = false ->
      truthy (AuthProvider.user ctx) = true ->
      ProtectedRoute children ctx = Children children)
  /\ (ProtectedRoute children ctx = Loading_div
      \/ ProtectedRoute children ctx = Navigate "/login" true
      \/ ProtectedRoute children ctx = Children children).
Proof.
  unfold ProtectedRoute.
  split; [now intros ->|].
  split; [now intros -> ->|].
  split; [now intros -> ->|].
  destruct (AuthProvider.loading ctx); [now left|].
  destruct (truthy (AuthProvider.user ctx)); cbn; [now right; right | now right; left].
Qed.

Lemma ProtectedRoute_three_cases_witness :
  AuthProvider.loading {| AuthProvider.user := JNull; AuthProvider.loading := false |}
  = false
  /\ ProtectedRoute tt {| AuthProvider.user := JNull; AuthProvider.loading := false |}
     = Navigate "/login" true.
Proof.
  split; [reflexivity|].
  destruct (ProtectedRoute_three_cases unit tt
              {| AuthProvider.user := JNull; AuthProvider.loading := false |})
    as (_ & Hdenied & _).
  apply Hdenied; reflexivity.
Defined.



(* ===================================================================== *)
(** * Further properties of the chat client and the session               *)
(* ===================================================================== *)

Lemma exchange_error_resolved (o : Outcome) :
  exchange_error o = None ->
  exists response res c,
    o = Fulfilled response /\ GetV response "data" = Ok res
    /\ GetV res "conversation_id" = Ok c.
Proof.
  destruct o as [response | e]; simpl; [|discriminate].
  destruct (GetV response "data") as [res|] eqn:Hd; [|discriminate].
  destruct (GetV res "conversation_id") as [c|] eqn:Hc; [|discriminate].
  intros _. now exists response, res, c.
Qed.

(** [sendChat] up to its [await], case by case. *)
Lemma sendChat_send_cases (message conversationId where_ : JsVal) (w : World) :
  sendChat_send message conversationId where_ w
  = match message with
    | JStr s =>
        if truthy (JStr s) && truthy (JStr (trim s))
        then api_post "/chat"
               (JObj (spread
                        (spread [("message"%string, message)]
                           (if truthy conversationId
                            then [("conversation_id"%string, conversationId)] else []))
                        (if truthy where_ then [("where"%string, where_)] else []))) w
        else (Thrown (Error (lit "Message is required")), w)
    | _ =>
        if truthy message
        then (Thrown (TypeError_not_a_function "message.trim"), w)
        else (Thrown (Error (lit "Message is required")), w)
    end.
Proof.
  unfold sendChat_send, bind.
  destruct message as [| | b | n | s | elems | props]; try reflexivity.
  - now destruct b.
  - cbn [truthy]. now destruct (n =? 0).
  - destruct (truthy (JStr s)); cbn [negb andb]; [|reflexivity].
    unfold call_trim, ret. now destruct (truthy (JStr (trim s))).
Qed.

(** X1.  [sendChat] issues a request exactly when its message is a string
    that is not blank after trimming; a missing, blank or non-string
    message makes it throw.  Neither before nor after the [await] does it
    change any client state: holding and storing the conversation
    identifier is left to the caller. *)
Theorem sendChat_requests_iff_nonblank_string
        (message conversationId where_ : JsVal) (o : Outcome) (w : World) :
  ((exists rq, fst (sendChat_send message conversationId where_ w) = Ok rq)
   <-> (exists s, message = JStr s /\ trim s <> []))
  /\ snd (sendChat_send message conversationId where_ w) = w
  /\ snd (sendChat_then o w) = w.
Proof.
  rewrite sendChat_send_cases. split; [|split].
  - split.
    + intros [rq Hrq].
      destruct message as [| | b | n | s | elems | props];
        try (destruct (truthy _) in Hrq; discriminate).
      exists s. split; [reflexivity|].
      destruct (truthy (JStr s)); [|discriminate].
      destruct (truthy (JStr (trim s))) eqn:Ht; [|discriminate].
      now apply truthy_JStr.
    + intros (s & -> & Hs).
      assert (Hne : s <> []) by (intros ->; now apply Hs).
      apply truthy_JStr in Hne. apply truthy_JStr in Hs.
      rewrite Hne, Hs. cbn [andb]. unfold api_post, api_request.
      eexists. reflexivity.
  - destruct message as [| | b | n | s | elems | props];
      try (now destruct (truthy _)).
    now destruct (truthy (JStr s) && truthy (JStr (trim s))).
  - unfold sendChat_then, bind, completion.
    destruct o as [response | e]; cbn; [|reflexivity].
    destruct (GetV response "data"); reflexivity.
Qed.

Lemma sendChat_requests_iff_nonblank_string_witness :
  exists rq, fst (sendChat_send (JStr (lit " epic ")) JUndefined JUndefined fresh_chat) = Ok rq.
Proof.
  apply (proj1 (sendChat_requests_iff_nonblank_string
                  (JStr (lit " epic ")) JUndefined JUndefined (Rejected JNull) fresh_chat)).
  exists (lit " epic "). split; [reflexivity | vm_compute; discriminate].
Defined.

(** X2.  For a message string that is not blank after trimming, [sendChat]
    posts to [/chat] a body holding the message exactly as given (not
    trimmed), then [conversation_id] when the identifier is truthy, then
    [where] when the filter is truthy, and nothing else. *)
Theorem sendChat_posts_message_as_given
        (s : JsString) (conversationId where_ : JsVal) (w : World) :
  trim s <> [] ->
  fst (sendChat_send (JStr s) conversationId where_ w)
  = Ok {| rq_method := POST; rq_url := "/chat";
          rq_body :=
            JObj ([("message"%string, JStr s)]
                    ++ (if truthy conversationId
                        then [("conversation_id"%string, conversationId)] else [])
                    ++ (if truthy where_ then [("where"%string, where_)] else []));
          rq_bearer := localStorage w !! "access_token"%string |}.
Proof.
  intros Hs. rewrite sendChat_send_cases.
  assert (Hne : s <> []) by (intros ->; now apply Hs).
  apply truthy_JStr in Hne. apply truthy_JStr in Hs.
  rewrite Hne, Hs. cbn [andb]. unfold api_post, api_request.
  destruct (truthy conversationId), (truthy where_); reflexivity.
Qed.

Lemma sendChat_posts_message_as_given_witness :
  trim (lit "  epic  ") <> []
  /\ fst (sendChat_send (JStr (lit "  epic  ")) (JNum 7)
                        (JObj [("lang"%string, JStr (lit "ro"))]) fresh_chat)
     = Ok {| rq_method := POST; rq_url := "/chat";
             rq_body :=
               JObj [("message"%string, JStr (lit "  epic  "));
                     ("conversation_id"%string, JNum 7);
                     ("where"%string, JObj [("lang"%string, JStr (lit "ro"))])];
             rq_bearer := None |}.
Proof.
  split; [vm_compute; discriminate|].
  apply (sendChat_posts_message_as_given (lit "  epic  ") (JNum 7)
           (JObj [("lang"%string, JStr (lit "ro"))]) fresh_chat).
  vm_compute; discriminate.
Defined.

(** ** One event at a time *)

(** What a submit does: nothing, or the accepted turn. *)
Lemma handleSend_cases (props : MessageInputProps) (w : World) :
  handleSend props w = w
  \/ handleSend props w
     = {| auth := auth w;
          chat := {| ChatPage.convId := ChatPage.convId (chat w);
                     ChatPage.msgs := ChatPage.msgs (chat w)
                       ++ [ {| role := user_role; content := JStr (trim (value w)) |} ];
                     ChatPage.loading := true |};
          value := [];
          localStorage := localStorage w;
          pending := pending w
            ++ [ (chat_request (JStr (trim (value w))) (ChatPage.convId (chat w)) w,
                  K_onSend) ] |}.
Proof.
  destruct (trim (value w)) as [|c rest] eqn:Hv.
  - left. now apply handleSend_blank.
  - right. rewrite <- Hv. apply handleSend_accepts. rewrite Hv. discriminate.
Qed.

(** What a settlement does: nothing when no such request is in flight,
    the session update for an identity check, the error entry for a
    failed exchange, the answer and the identifier for a resolved one,
    the identifier and the error entry when the identifier could not be
    stored, and at most a write to the storage for a request of a view
    that has unmounted. *)
Lemma settle_cases (i : nat) (o : Outcome) (w : World) :
  settle i o w = w
  \/ settle i o w
     = {| auth := {| AuthProvider.user := refreshed_user o;
                     AuthProvider.loading := false |};
          chat := chat w; value := value w; localStorage := localStorage w;
          pending := delete i (pending w) |}
  \/ (exists e,
         settle i o w
         = {| auth := auth w;
              chat := {| ChatPage.convId := ChatPage.convId (chat w);
                         ChatPage.msgs := ChatPage.msgs (chat w) ++ [error_entry e];
                         ChatPage.loading := false |};
              value := value w;
              localStorage := localStorage w;
              pending := delete i (pending w) |})
  \/ (exists res c,
         settle i o w
         = {| auth := auth w;
              chat := {| ChatPage.convId := c;
                         ChatPage.msgs := ChatPage.msgs (chat w)
                           ++ [ {| role := assistant_role;
                                   content := opt_chain res "answer" |} ];
                         ChatPage.loading := false |};
              value := value w;
              localStorage := <["convId"%string := ToString c]> (localStorage w);
              pending := delete i (pending w) |})
  \/ (exists c e,
         settle i o w
         = {| auth := auth w;
              chat := {| ChatPage.convId := c;
                         ChatPage.msgs := ChatPage.msgs (chat w) ++ [error_entry e];
                         ChatPage.loading := false |};
              value := value w;
              localStorage := localStorage w;
              pending := delete i (pending w) |})
  \/ (exists store,
         settle i o w
         = {| auth := auth w; chat := chat w; value := value w;
              localStorage := store;
              pending := delete i (pending w) |}).
Proof.
  destruct (pending w !! i) as [[rq k]|] eqn:Hp.
  - destruct k.
    + destruct (exchange_error o) as [e|] eqn:He.
      * right; right; left. exists e. exact (settle_failed w i rq Hp o e He).
      * destruct (exchange_error_resolved o He) as (response & res & c & -> & Hd & Hc).
        destruct (has_room "convId" (ToString c) (localStorage w)) eqn:Hroom.
        -- right; right; right; left. exists res, c.
           exact (settle_resolved w i rq Hp response res c Hd Hc Hroom).
        -- right; right; right; right; left. exists c, (QuotaExceededError "convId").
           exact (settle_store_failed w i rq Hp response res c Hd Hc Hroom).
    + right; left.
      destruct (pending_split w i _ Hp) as (before & after & Hw & ->).
      rewrite (settle_refresh_at w before after rq o Hw).
      now rewrite Hw, delete_middle.
    + right; right; right; right; right.
      destruct (settle_unmounted w i rq o Hp) as (Ha & Hc & Hv & Hpd).
      exists (localStorage (settle i o w)).
      destruct (settle i o w) as [a c v st pd]. cbn in *. now subst.
  - left. unfold settle. now rewrite Hp.
Qed.

(** X3.  Calls of [refresh()] are neither queued nor merged: with two
    identity checks in flight, the one that settles last decides [user],
    whichever was issued first; [loading] ends [false] and both requests
    are gone. *)
Theorem overlapping_refreshes_last_settled_wins (w : World) (o1 o2 : Outcome) :
  run w [Ev_refresh; Ev_refresh;
         Ev_settle (length (pending w)) o1; Ev_settle (length (pending w)) o2]
  = {| auth := {| AuthProvider.user := refreshed_user o2;
                  AuthProvider.loading := false |};
       chat := chat w; value := value w;
       localStorage := localStorage w; pending := pending w |}
  /\ run w [Ev_refresh; Ev_refresh;
            Ev_settle (S (length (pending w))) o2; Ev_settle (length (pending w)) o1]
     = {| auth := {| AuthProvider.user := refreshed_user o1;
                     AuthProvider.loading := false |};
          chat := chat w; value := value w;
          localStorage := localStorage w; pending := pending w |}.
Proof.
  split.
  - cbn [run fold_left step]. rewrite !call_refresh_eq.
    rewrite (settle_refresh_at
               (set_pending _ (set_pending _ w)) (pending w)
               [(me_request w, K_refresh)] (me_request w) o1)
      by (cbn [pending set_pending]; now rewrite <- app_assoc).
    cbn [set_pending chat value localStorage].
    rewrite (settle_refresh_at _ (pending w) [] (me_request w) o2) by reflexivity.
    cbn [chat value localStorage]. now rewrite app_nil_r.
  - cbn [run fold_left step]. rewrite !call_refresh_eq.
    replace (S (length (pending w)))
      with (length (pending w ++ [(me_request w, K_refresh)]))
      by (rewrite length_app; cbn; lia).
    rewrite (settle_refresh_at
               (set_pending _ (set_pending _ w)) (pending w ++ [(me_request w, K_refresh)])
               [] (me_request w) o2)
      by reflexivity.
    cbn [set_pending chat value localStorage]. rewrite app_nil_r.
    rewrite (settle_refresh_at _ (pending w) [] (me_request w) o1) by reflexivity.
    cbn [chat value localStorage]. now rewrite app_nil_r.
Qed.

(** X4.  Nothing sets the session's [loading] back to [true]: once it is
    [false] it stays [false] through any sequence of typing, submits,
    settlements, further [refresh()] calls, logouts and mounts of the
    chat view. *)
Theorem session_loading_stays_cleared (evs : list Event) (w : World) :
  AuthProvider.loading (auth w) = false ->
  AuthProvider.loading (auth (run w evs)) = false.
Proof.
  revert w. induction evs as [|ev evs IH]; intros w Hw; [exact Hw|].
  cbn [run fold_left]. apply IH.
  destruct ev as [s | | i o | | |]; cbn [step].
  - exact Hw.
  - now destruct (handleSend_cases (ChatPage_props w) w) as [-> | ->].
  - destruct (settle_cases i o w)
      as [-> | [-> | [[e ->] | [(res & c & ->) | [(c & e & ->) | (store & ->)]]]]];
      try exact Hw; reflexivity.
  - exact Hw.
  - exact Hw.
  - now destruct (ChatPage_mount_frame w) as (_ & _ & -> & _).
Qed.

Lemma session_loading_stays_cleared_witness :
  AuthProvider.loading (auth (settle 0 (Rejected JNull) busy_chat)) = false
  /\ AuthProvider.loading
       (auth (run (settle 0 (Rejected JNull) busy_chat)
                  [Ev_refresh; Ev_change (lit "x"); Ev_send; Ev_logout; Ev_open_chat]))
     = false.
Proof.
  split; [reflexivity|].
  apply (session_loading_stays_cleared
           [Ev_refresh; Ev_change (lit "x"); Ev_send; Ev_logout; Ev_open_chat]
           (settle 0 (Rejected JNull) busy_chat)).
  reflexivity.
Defined.

(** X5.  Once a [refresh()] has settled, the guard admits exactly when
    [me()] returned a truthy value, and redirects to [/login] otherwise:
    when [me()] threw, and also when it returned a falsy body. *)
Theorem guard_admits_iff_identity_is_truthy
        (C : Type) (children : C) (w : World) (o : Outcome) :
  (ProtectedRoute children
     (auth (run w [Ev_refresh; Ev_settle (length (pending w)) o]))
   = Children children
   <-> exists u, fst (me_then o w) = Ok u /\ truthy u = true)
  /\ (ProtectedRoute children
        (auth (run w [Ev_refresh; Ev_settle (length (pending w)) o]))
      = Children children
      \/ ProtectedRoute children
           (auth (run w [Ev_refresh; Ev_settle (length (pending w)) o]))
         = Navigate "/login" true).
Proof.
  rewrite refresh_round. unfold ProtectedRoute. cbn [auth AuthProvider.loading AuthProvider.user].
  rewrite me_then_result. cbn [fst]. unfold refreshed_user.
  split.
  - split.
    + destruct o as [response | e].
      * destruct (GetV response "data") as [u | e]; cbn.
        -- destruct (truthy u) eqn:Hu; cbn; [|discriminate]. intros _. now exists u.
        -- discriminate.
      * cbn. discriminate.
    + intros (u & Hu & Ht). destruct o as [response | e]; [|discriminate].
      rewrite Hu. now rewrite Ht.
  - destruct o as [response | e]; [|now right].
    destruct (GetV response "data") as [u | e]; [|now right].
    destruct (truthy u); cbn; [now left | now right].
Qed.

Lemma guard_admits_iff_identity_is_truthy_witness :
  ProtectedRoute tt
    (auth (run fresh_chat
               [Ev_refresh;
                Ev_settle (length (pending fresh_chat))
                          (Fulfilled (JObj [("data"%string, profile_u)]))]))
  = Children tt.
Proof.
  apply (proj1 (guard_admits_iff_identity_is_truthy unit tt fresh_chat
                  (Fulfilled (JObj [("data"%string, profile_u)])))).
  exists profile_u. split; reflexivity.
Defined.

Lemma run_appends_witness :
  forallb keeps_view
    [Ev_change (lit "dystopian classic"); Ev_send;
     Ev_settle 1 (Rejected not_found_error); Ev_settle 1 (Fulfilled reply_abc123)]
  = true
  /\ exists added,
       ChatPage.msgs
         (chat (run busy_chat
                    [Ev_change (lit "dystopian classic"); Ev_send;
                     Ev_settle 1 (Rejected not_found_error);
                     Ev_settle 1 (Fulfilled reply_abc123)]))
       = ChatPage.msgs (chat busy_chat) ++ added.
Proof.
  split; [reflexivity|].
  apply (run_appends
           [Ev_change (lit "dystopian classic"); Ev_send;
            Ev_settle 1 (Rejected not_found_error); Ev_settle 1 (Fulfilled reply_abc123)]
           busy_chat).
  reflexivity.
Defined.

Lemma run_turns_balance_witness :
  forallb keeps_view
    [Ev_change (lit "cozy fantasy"); Ev_send; Ev_change (lit "dystopian classic");
     Ev_send; Ev_settle 2 (Rejected not_found_error)]
  = true
  /\ (count is_assistant
        (ChatPage.msgs
           (chat (run fresh_chat
                      [Ev_change (lit "cozy fantasy"); Ev_send;
                       Ev_change (lit "dystopian classic"); Ev_send;
                       Ev_settle 2 (Rejected not_found_error)])))
      + length (chats_in_flight
                  (run fresh_chat
                       [Ev_change (lit "cozy fantasy"); Ev_send;
                        Ev_change (lit "dystopian classic"); Ev_send;
                        Ev_settle 2 (Rejected not_found_error)]))
      + count is_user (ChatPage.msgs (chat fresh_chat))
      = count is_assistant (ChatPage.msgs (chat fresh_chat))
        + length (chats_in_flight fresh_chat)
        + count is_user
            (ChatPage.msgs
               (chat (run fresh_chat
                          [Ev_change (lit "cozy fantasy"); Ev_send;
                           Ev_change (lit "dystopian classic"); Ev_send;
                           Ev_settle 2 (Rejected not_found_error)]))))%nat.
Proof.
  split; [reflexivity|].
  apply (run_turns_balance
           [Ev_change (lit "cozy fantasy"); Ev_send; Ev_change (lit "dystopian classic");
            Ev_send; Ev_settle 2 (Rejected not_found_error)]
           fresh_chat).
  reflexivity.
Defined.

(** ** Invariants of the mounted chat view *)

Lemma chats_in_flight_nil (w : World) :
  chats_in_flight w = [] <-> List.filter is_chat (pending w) = [].
Proof.
  unfold chats_in_flight. destruct (List.filter is_chat (pending w)); cbn; split;
    congruence.
Qed.

Lemma step_idle_means_not_busy (w : World) (ev : Event) :
  keeps_view ev = true -> idle_means_not_busy w -> idle_means_not_busy (step w ev).
Proof.
  unfold idle_means_not_busy. intros Hev Hw.
  destruct ev as [s | | i o | | |]; try discriminate; cbn [step].
  - exact Hw.
  - destruct (handleSend_cases (ChatPage_props w) w) as [-> | ->]; [exact Hw|].
    rewrite chats_in_flight_nil. cbn [pending]. rewrite List.filter_app. cbn.
    intros Hnil. now apply app_eq_nil in Hnil as [_ Hnil].
  - destruct (pending w !! i) as [[rq k]|] eqn:Hp.
    + destruct k.
      * destruct (exchange_error o) as [e|] eqn:He.
        -- now rewrite (settle_failed w i rq Hp o e He).
        -- destruct (exchange_error_resolved o He) as (response & res & c & -> & Hd & Hc).
           destruct (has_room "convId" (ToString c) (localStorage w)) eqn:Hroom.
           ++ now rewrite (settle_resolved w i rq Hp response res c Hd Hc Hroom).
           ++ now rewrite (settle_store_failed w i rq Hp response res c Hd Hc Hroom).
      * destruct (pending_split w i _ Hp) as (before & after & Hpw & ->).
        rewrite (settle_refresh_at w before after rq o Hpw).
        rewrite !chats_in_flight_nil in *. cbn [pending chat].
        rewrite Hpw in Hw. rewrite !List.filter_app in *. exact Hw.
      * destruct (pending_split w i _ Hp) as (before & after & Hpw & ->).
        destruct (settle_unmounted w _ rq o Hp) as (_ & Hc & _ & Hpd).
        rewrite !chats_in_flight_nil in *. rewrite Hc, Hpd.
        rewrite Hpw, delete_middle in *. rewrite !List.filter_app in *. exact Hw.
    + unfold settle. now rewrite Hp.
  - rewrite call_refresh_eq, !chats_in_flight_nil in *. cbn [pending set_pending chat].
    rewrite List.filter_app, app_nil_r. exact Hw.
  - exact Hw.
Qed.

(** X9.  From the moment the chat view mounts, and for as long as it
    stays mounted, the busy flag (and with it the typing placeholder)
    never outlives the exchanges: whenever no chat request is in flight,
    [loading] is [false]. *)
Theorem busy_flag_never_outlives_exchanges (evs : list Event) (w0 : World) :
  forallb keeps_view evs = true ->
  idle_means_not_busy (run (exec ChatPage_mount w0) evs).
Proof.
  assert (Hmount : idle_means_not_busy (exec ChatPage_mount w0)).
  { intros _. now destruct (ChatPage_mount_frame w0) as (_ & _ & _ & _ & _ & ->). }
  revert Hmount. generalize (exec ChatPage_mount w0).
  induction evs as [|ev evs IH]; intros w Hw Hevs; [exact Hw|].
  cbn in Hevs. apply andb_true_iff in Hevs as [Hev Hevs].
  cbn [run fold_left]. apply IH; [|exact Hevs]. now apply step_idle_means_not_busy.
Qed.

Lemma busy_flag_never_outlives_exchanges_witness :
  forallb keeps_view
    [Ev_change (lit "cozy fantasy"); Ev_send; Ev_settle 1 (Rejected not_found_error)]
  = true
  /\ ChatPage.loading
       (chat (run (exec ChatPage_mount (App_mount ∅))
                  [Ev_change (lit "cozy fantasy"); Ev_send;
                   Ev_settle 1 (Rejected not_found_error)]))
     = false.
Proof.
  split; [reflexivity|].
  apply (busy_flag_never_outlives_exchanges
           [Ev_change (lit "cozy fantasy"); Ev_send;
            Ev_settle 1 (Rejected not_found_error)]
           (App_mount ∅)); reflexivity.
Defined.

(* ===================================================================== *)
(** * Further properties of the auth client                               *)
(* ===================================================================== *)

Lemma logout_eq (w : World) :
  exec logout w
  = {| auth := auth w; chat := chat w; value := value w;
       localStorage := delete "access_token"%string (localStorage w);
       pending := pending w |}.
Proof. reflexivity. Qed.

(** X10.  A successful [login] followed by [logout] leaves the storage
    without a token and otherwise as it was before the login; if no token
    was stored before, the whole client state is back to what it was.  A
    second [logout] changes nothing more. *)
Theorem login_then_logout_round_trip (w : World) (response data : JsVal) :
  fst (login_then (Fulfilled response) w) = Ok data ->
  localStorage (exec logout (snd (login_then (Fulfilled response) w)))
  = delete "access_token"%string (localStorage w)
  /\ (localStorage w !! "access_token" = None ->
      exec logout (snd (login_then (Fulfilled response) w)) = w)
  /\ exec logout (exec logout w) = exec logout w.
Proof.
  rewrite login_then_cases.
  destruct (GetV response "data") as [d | e]; [|discriminate].
  destruct (GetV d "access_token") as [token | e]; [|discriminate].
  destruct (has_room "access_token" (ToString token) (localStorage w)); [|discriminate].
  intros _. cbn [fst snd]. rewrite !logout_eq. cbn [auth chat value localStorage pending].
  rewrite Storage_delete_insert_eq, Storage_delete_delete_eq.
  split; [reflexivity|]. split; [|reflexivity].
  intros Hnone. rewrite (Storage_delete_id _ _ Hnone). now destruct w.
Qed.

Lemma login_then_logout_round_trip_witness :
  fst (login_then (Fulfilled login_ok) fresh_chat)
  = Ok (JObj [("access_token"%string, JStr (lit "tok-1"));
              ("token_type"%string, JStr (lit "bearer"))])
  /\ localStorage fresh_chat !! "access_token" = None
  /\ exec logout (snd (login_then (Fulfilled login_ok) fresh_chat)) = fresh_chat.
Proof.
  split; [reflexivity|]. split; [reflexivity|].
  apply (login_then_logout_round_trip fresh_chat login_ok
           (JObj [("access_token"%string, JStr (lit "tok-1"));
                  ("token_type"%string, JStr (lit "bearer"))]));
    reflexivity.
Defined.



(* ===================================================================== *)
(** * Overlapping turns                                                   *)
(* ===================================================================== *)

(** X13.  A submit made while another turn is pending goes out with the
    identifier held when it is made: the two requests carry the same
    [conversation_id] (none, for a view that holds none), the second not
    waiting for what the first will bring.  When both resolve, with
    identifiers (strings or safe integers) that the storage has room
    for, the identifier held is that of the response that arrived last,
    and its text is what is stored, in whichever order they arrive. *)
Theorem overlapping_submits_share_the_held_identifier
        (w : World) (s1 s2 : JsString) :
  trim s1 <> [] ->
  trim s2 <> [] ->
  pending (run w [Ev_change s1; Ev_send; Ev_change s2; Ev_send])
  = pending w
      ++ [ (chat_request (JStr (trim s1)) (ChatPage.convId (chat w)) w, K_onSend);
           (chat_request (JStr (trim s2)) (ChatPage.convId (chat w)) w, K_onSend) ]
  /\ forall (r1 r2 res1 res2 c1 c2 : JsVal) (t1 t2 : JsString),
       GetV r1 "data" = Ok res1 -> GetV res1 "conversation_id" = Ok c1 ->
       GetV r2 "data" = Ok res2 -> GetV res2 "conversation_id" = Ok c2 ->
       id_text c1 = Some t1 -> id_text c2 = Some t2 ->
       has_room "convId" t1 (localStorage w) = true ->
       has_room "convId" t2 (localStorage w) = true ->
       (ChatPage.convId
          (chat (run w [Ev_change s1; Ev_send; Ev_change s2; Ev_send;
                        Ev_settle (length (pending w)) (Fulfilled r1);
                        Ev_settle (length (pending w)) (Fulfilled r2)])) = c2
        /\ localStorage
             (run w [Ev_change s1; Ev_send; Ev_change s2; Ev_send;
                     Ev_settle (length (pending w)) (Fulfilled r1);
                     Ev_settle (length (pending w)) (Fulfilled r2)]) !! "convId"
           = Some t2)
       /\ (ChatPage.convId
             (chat (run w [Ev_change s1; Ev_send; Ev_change s2; Ev_send;
                           Ev_settle (S (length (pending w))) (Fulfilled r2);
                           Ev_settle (length (pending w)) (Fulfilled r1)])) = c1
           /\ localStorage
                (run w [Ev_change s1; Ev_send; Ev_change s2; Ev_send;
                        Ev_settle (S (length (pending w))) (Fulfilled r2);
                        Ev_settle (length (pending w)) (Fulfilled r1)]) !! "convId"
              = Some t1).
Proof.
  intros H1 H2.
  set (rq1 := chat_request (JStr (trim s1)) (ChatPage.convId (chat w)) w).
  set (rq2 := chat_request (JStr (trim s2)) (ChatPage.convId (chat w)) w).
  assert (Hw2 : run w [Ev_change s1; Ev_send; Ev_change s2; Ev_send]
                = {| auth := auth w;
                     chat := {| ChatPage.convId := ChatPage.convId (chat w);
                                ChatPage.msgs :=
                                  (ChatPage.msgs (chat w)
                                     ++ [ {| role := user_role; content := JStr (trim s1) |} ])
                                    ++ [ {| role := user_role; content := JStr (trim s2) |} ];
                                ChatPage.loading := true |};
                     value := [];
                     localStorage := localStorage w;
                     pending := pending w ++ [(rq1, K_onSend); (rq2, K_onSend)] |}).
  { cbn [run fold_left step].
    rewrite (handleSend_accepts _ (exec (setValue s1) w)) by exact H1.
    cbn [exec setValue snd auth chat value localStorage pending
         ChatPage.convId ChatPage.msgs].
    match goal with
    | |- handleSend ?p ?w1 = _ => rewrite (handleSend_accepts p w1) by exact H2
    end.
    cbn [auth chat value localStorage pending ChatPage.convId ChatPage.msgs].
    unfold rq1, rq2, chat_request. cbn [localStorage].
    f_equal. now rewrite <- (app_assoc (pending w)). }
  split; [now rewrite Hw2|].
  intros r1 r2 res1 res2 c1 c2 t1 t2 Hd1 Hc1 Hd2 Hc2 Hid1 Hid2 Hroom1 Hroom2.
  pose proof (id_text_ToString c1 t1 Hid1) as Ht1.
  pose proof (id_text_ToString c2 t2 Hid2) as Ht2.
  assert (Hsecond : (pending w ++ [(rq1, K_onSend); (rq2, K_onSend)])
                      !! S (length (pending w)) = Some (rq2, K_onSend)).
  { change (pending w ++ [(rq1, K_onSend); (rq2, K_onSend)])
      with (pending w ++ [(rq1, K_onSend)] ++ [(rq2, K_onSend)]).
    rewrite app_assoc. apply list_lookup_middle. rewrite length_app. cbn. lia. }
  assert (Hdel : delete (S (length (pending w)))
                   (pending w ++ [(rq1, K_onSend); (rq2, K_onSend)])
                 = pending w ++ [(rq1, K_onSend)]).
  { change (pending w ++ [(rq1, K_onSend); (rq2, K_onSend)])
      with (pending w ++ [(rq1, K_onSend)] ++ [(rq2, K_onSend)]).
    rewrite app_assoc.
    replace (S (length (pending w))) with (length (pending w ++ [(rq1, K_onSend)]))
      by (rewrite length_app; cbn; lia).
    now rewrite delete_middle, app_nil_r. }
  split.
  - change (run w [Ev_change s1; Ev_send; Ev_change s2; Ev_send;
                   Ev_settle (length (pending w)) (Fulfilled r1);
                   Ev_settle (length (pending w)) (Fulfilled r2)])
      with (run (run w [Ev_change s1; Ev_send; Ev_change s2; Ev_send])
                [Ev_settle (length (pending w)) (Fulfilled r1);
                 Ev_settle (length (pending w)) (Fulfilled r2)]).
    rewrite Hw2. cbn [run fold_left step].
    match goal with
    | |- context [settle (length (pending w)) (Fulfilled r1) ?W] =>
        rewrite (settle_resolved W (length (pending w)) rq1
                   (list_lookup_middle (pending w) [(rq2, K_onSend)] (rq1, K_onSend)
                      _ eq_refl)
                   r1 res1 c1 Hd1 Hc1)
          by (cbn [localStorage]; now rewrite Ht1)
    end.
    cbn [pending auth chat value localStorage ChatPage.convId ChatPage.msgs].
    rewrite delete_middle.
    match goal with
    | |- context [settle (length (pending w)) (Fulfilled r2) ?W] =>
        rewrite (settle_resolved W (length (pending w)) rq2
                   (list_lookup_middle (pending w) [] (rq2, K_onSend) _ eq_refl)
                   r2 res2 c2 Hd2 Hc2)
          by (cbn [localStorage]; now rewrite has_room_insert_same, Ht2)
    end.
    cbn [chat localStorage ChatPage.convId]. split; [reflexivity|].
    rewrite Ht2. apply Storage_lookup_insert_eq.
  - change (run w [Ev_change s1; Ev_send; Ev_change s2; Ev_send;
                   Ev_settle (S (length (pending w))) (Fulfilled r2);
                   Ev_settle (length (pending w)) (Fulfilled r1)])
      with (run (run w [Ev_change s1; Ev_send; Ev_change s2; Ev_send])
                [Ev_settle (S (length (pending w))) (Fulfilled r2);
                 Ev_settle (length (pending w)) (Fulfilled r1)]).
    rewrite Hw2. cbn [run fold_left step].
    match goal with
    | |- context [settle (S (length (pending w))) (Fulfilled r2) ?W] =>
        rewrite (settle_resolved W (S (length (pending w))) rq2 Hsecond
                   r2 res2 c2 Hd2 Hc2)
          by (cbn [localStorage]; now rewrite Ht2)
    end.
    cbn [pending auth chat value localStorage ChatPage.convId ChatPage.msgs].
    rewrite Hdel.
    match goal with
    | |- context [settle (length (pending w)) (Fulfilled r1) ?W] =>
        rewrite (settle_resolved W (length (pending w)) rq1
                   (list_lookup_middle (pending w) [] (rq1, K_onSend) _ eq_refl)
                   r1 res1 c1 Hd1 Hc1)
          by (cbn [localStorage]; now rewrite has_room_insert_same, Ht1)
    end.
    cbn [chat localStorage ChatPage.convId]. split; [reflexivity|].
    rewrite Ht1. apply Storage_lookup_insert_eq.
Qed.

Lemma overlapping_submits_share_the_held_identifier_witness :
  (trim (lit "cozy fantasy") <> []
   /\ trim (lit "dystopian classic") <> []
   /\ id_text (JStr (lit "abc123")) = Some (lit "abc123")
   /\ id_text (JNum 42) = Some [0x34; 0x32]%N
   /\ has_room "convId" (lit "abc123") (localStorage fresh_chat) = true
   /\ has_room "convId" [0x34; 0x32]%N (localStorage fresh_chat) = true)
  /\ map rq_body
       (chats_in_flight
          (run fresh_chat [Ev_change (lit "cozy fantasy"); Ev_send;
                           Ev_change (lit "dystopian classic"); Ev_send]))
     = [ JObj [("message"%string, JStr (lit "cozy fantasy"))];
         JObj [("message"%string, JStr (lit "dystopian classic"))] ]
  /\ (ChatPage.convId
        (chat (run fresh_chat
                   [Ev_change (lit "cozy fantasy"); Ev_send;
                    Ev_change (lit "dystopian classic"); Ev_send;
                    Ev_settle (length (pending fresh_chat)) (Fulfilled reply_abc123);
                    Ev_settle (length (pending fresh_chat)) (Fulfilled reply_42)]))
      = JNum 42
      /\ localStorage
           (run fresh_chat
                [Ev_change (lit "cozy fantasy"); Ev_send;
                 Ev_change (lit "dystopian classic"); Ev_send;
                 Ev_settle (length (pending fresh_chat)) (Fulfilled reply_abc123);
                 Ev_settle (length (pending fresh_chat)) (Fulfilled reply_42)])
           !! "convId"
         = Some [0x34; 0x32]%N)
  /\ (ChatPage.convId
        (chat (run fresh_chat
                   [Ev_change (lit "cozy fantasy"); Ev_send;
                    Ev_change (lit "dystopian classic"); Ev_send;
                    Ev_settle (S (length (pending fresh_chat))) (Fulfilled reply_42);
                    Ev_settle (length (pending fresh_chat)) (Fulfilled reply_abc123)]))
      = JStr (lit "abc123")
      /\ localStorage
           (run fresh_chat
                [Ev_change (lit "cozy fantasy"); Ev_send;
                 Ev_change (lit "dystopian classic"); Ev_send;
                 Ev_settle (S (length (pending fresh_chat))) (Fulfilled reply_42);
                 Ev_settle (length (pending fresh_chat)) (Fulfilled reply_abc123)])
           !! "convId"
         = Some (lit "abc123")).
Proof.
  split.
  { split; [vm_compute; discriminate|]. split; [vm_compute; discriminate|].
    split; [reflexivity|]. split; [reflexivity|].
    split; vm_compute; reflexivity. }
  destruct (overlapping_submits_share_the_held_identifier fresh_chat
              (lit "cozy fantasy") (lit "dystopian classic")
              ltac:(vm_compute; discriminate) ltac:(vm_compute; discriminate))
    as [Hsent Hboth].
  split; [unfold chats_in_flight; rewrite Hsent; reflexivity|].
  apply (Hboth reply_abc123 reply_42
           (JObj [("conversation_id"%string, JStr (lit "abc123"));
                  ("answer"%string, JStr (lit "Try The Goblin Emperor."))])
           (JObj [("conversation_id"%string, JNum 42);
                  ("answer"%string, JStr (lit "Try Piranesi."))])
           (JStr (lit "abc123")) (JNum 42) (lit "abc123") [0x34; 0x32]%N);
    try reflexivity; vm_compute; reflexivity.
Defined.

(* ===================================================================== *)
(** * The login page                                                      *)
(* ===================================================================== *)

(** What [onSubmit] leaves behind at its first [await]. *)
Lemma LoginPage_onSubmit_eq (s : Site) :
  LoginPage_onSubmit s
  = {| world := world s;
       history := history s;
       login_page := {| LoginPage.email := LoginPage.email (login_page s);
                        LoginPage.password := LoginPage.password (login_page s);
                        LoginPage.err := JNull;
                        LoginPage.loading := true |};
       register_page := register_page s;
       awaiting := awaiting s
         ++ [ ({| rq_method := POST; rq_url := "/auth/login";
                  rq_body := JObj [("email"%string, JStr (LoginPage.email (login_page s)));
                                   ("password"%string,
                                    JStr (LoginPage.password (login_page s)))];
                  rq_bearer := localStorage (world s) !! "access_token"%string |},
               K_submit_login) ];
       timers := timers s |}.
Proof. destruct s as [w h l r a t]. destruct w. reflexivity. Qed.

Lemma settle_page_last (s : Site) (rq : Request) (k : PageKont) (o : Outcome)
      (before : list (Request * PageKont)) :
  awaiting s = before ++ [(rq, k)] ->
  settle_page (length before) o s = resume_page k o (set_awaiting before s).
Proof.
  intros Ha. unfold settle_page.
  rewrite Ha, list_lookup_middle by reflexivity.
  now rewrite delete_middle, app_nil_r.
Qed.

(** X14.  When [login] throws, [onSubmit] stops there: no identity check
    is requested, nothing is stored, the history is untouched, and the
    page is interactive again with [err] set to the backend's [detail],
    or to ["Login failed"] when the error carries none ([null] or
    [undefined]).  A detail that is present but falsy, the empty string
    for one, is kept and so no message is rendered at all. *)
Theorem failed_login_reports_detail (s : Site) (o : Outcome) (e : JsVal) :
  fst (login_then o (world s)) = Thrown e ->
  settle_page (length (awaiting s)) o (LoginPage_onSubmit s)
  = set_login_page
      {| LoginPage.email := LoginPage.email (login_page s);
         LoginPage.password := LoginPage.password (login_page s);
         LoginPage.err := nullish_or (detail_of e) (JStr (lit "Login failed"));
         LoginPage.loading := false |} s
  /\ (nullish (detail_of e) = true ->
      LoginPage_error_shown
        (settle_page (length (awaiting s)) o (LoginPage_onSubmit s))
      = Some (lit "Login failed"))
  /\ (detail_of e = JStr [] ->
      LoginPage_error_shown
        (settle_page (length (awaiting s)) o (LoginPage_onSubmit s))
      = None).
Proof.
  intros He.
  assert (Hsettle : settle_page (length (awaiting s)) o (LoginPage_onSubmit s)
                    = set_login_page
                        {| LoginPage.email := LoginPage.email (login_page s);
                           LoginPage.password := LoginPage.password (login_page s);
                           LoginPage.err :=
                             nullish_or (detail_of e) (JStr (lit "Login failed"));
                           LoginPage.loading := false |} s).
  { rewrite LoginPage_onSubmit_eq.
    erewrite settle_page_last by reflexivity.
    cbn [resume_page]. unfold LoginPage_after_login, lift.
    cbn [world set_awaiting].
    destruct (login_then o (world s)) as [r w'] eqn:Hlogin.
    cbn [fst] in He. subst r.
    assert (Hw' : w' = world s).
    { pose proof (login_then_cases o (world s)) as Hc. rewrite Hlogin in Hc.
      destruct o as [response | e0]; cbv beta iota in Hc; [|congruence].
      destruct (GetV response "data") as [data | e1]; cbv beta iota in Hc; [|congruence].
      destruct (GetV data "access_token") as [token | e1];
        cbv beta iota in Hc; [|congruence].
      destruct (has_room "access_token" (ToString token) (localStorage (world s)));
        congruence. }
    subst w'. destruct s as [w h l r a t]. reflexivity. }
  rewrite Hsettle. split; [reflexivity|].
  unfold LoginPage_error_shown, nullish_or. cbn [login_page set_login_page LoginPage.err].
  split.
  - intros ->. reflexivity.
  - intros ->. reflexivity.
Qed.

Lemma failed_login_reports_detail_witness :
  fst (login_then (Rejected bad_credentials) (world login_typed)) = Thrown bad_credentials
  /\ LoginPage.err
       (login_page
          (settle_page (length (awaiting login_typed)) (Rejected bad_credentials)
                       (LoginPage_onSubmit login_typed)))
     = JStr (lit "Invalid credentials").
Proof.
  split; [reflexivity|].
  rewrite (proj1 (failed_login_reports_detail login_typed (Rejected bad_credentials)
                    bad_credentials eq_refl)).
  reflexivity.
Defined.

(** X15.  When [login] returns, its token is stored and [refresh()] is
    called; whatever the identity check then yields, thrown or not, the
    page replaces the current history entry by [/chat] (the history grows
    by no entry), because [refresh()] never throws.  [user] is what the
    check returned, or [null]; both [loading] flags end [false] and [err]
    stays [null].  So after a login whose identity check fails the tab
    is on [/chat] with no user, where the guard redirects. *)
Theorem successful_login_always_navigates_to_chat
        (C : Type) (children : C) (s : Site) (response data : JsVal) (o2 : Outcome) :
  fst (login_then (Fulfilled response) (world s)) = Ok data ->
  exists token : JsVal,
    GetV data "access_token" = Ok token
    /\ awaiting (settle_page (length (awaiting s)) (Fulfilled response)
                             (LoginPage_onSubmit s))
       = awaiting s
           ++ [ ({| rq_method := GET; rq_url := "/auth/me"; rq_body := JUndefined;
                    rq_bearer := Some (ToString token) |}, K_submit_refresh) ]
    /\ history (settle_page (length (awaiting s)) (Fulfilled response)
                            (LoginPage_onSubmit s))
       = history s
    /\ settle_page (length (awaiting s)) o2
         (settle_page (length (awaiting s)) (Fulfilled response) (LoginPage_onSubmit s))
       = {| world :=
              {| auth := {| AuthProvider.user := refreshed_user o2;
                            AuthProvider.loading := false |};
                 chat := chat (world s); value := value (world s);
                 localStorage :=
                   <["access_token"%string := ToString token]> (localStorage (world s));
                 pending := pending (world s) |};
            history := replaced "/chat" (history s);
            login_page := {| LoginPage.email := LoginPage.email (login_page s);
                             LoginPage.password := LoginPage.password (login_page s);
                             LoginPage.err := JNull;
                             LoginPage.loading := false |};
            register_page := register_page s;
            awaiting := awaiting s;
            timers := timers s |}
    /\ ProtectedRoute children
         (auth (world (settle_page (length (awaiting s)) o2
                         (settle_page (length (awaiting s)) (Fulfilled response)
                                      (LoginPage_onSubmit s)))))
       = (if truthy (refreshed_user o2) then Children children
          else Navigate "/login" true).
Proof.
  intros Hlogin.
  pose proof (login_then_cases (Fulfilled response) (world s)) as Hcases.
  cbv beta iota in Hcases. rewrite Hcases in Hlogin.
  destruct (GetV response "data") as [d | e] eqn:Hd; [|discriminate].
  destruct (GetV d "access_token") as [token | e] eqn:Ht; [|discriminate].
  destruct (has_room "access_token" (ToString token) (localStorage (world s)));
    [|discriminate].
  cbn [fst] in Hlogin. injection Hlogin as ->.
  exists token. split; [exact Ht|].
  assert (Hfirst : settle_page (length (awaiting s)) (Fulfilled response)
                     (LoginPage_onSubmit s)
                   = {| world :=
                          {| auth := auth (world s);
                             chat := chat (world s); value := value (world s);
                             localStorage :=
                               <["access_token"%string := ToString token]>
                                 (localStorage (world s));
                             pending := pending (world s) |};
                        history := history s;
                        login_page :=
                          {| LoginPage.email := LoginPage.email (login_page s);
                             LoginPage.password := LoginPage.password (login_page s);
                             LoginPage.err := JNull;
                             LoginPage.loading := true |};
                        register_page := register_page s;
                        awaiting := awaiting s
                          ++ [ ({| rq_method := GET; rq_url := "/auth/me";
                                   rq_body := JUndefined;
                                   rq_bearer := Some (ToString token) |},
                                K_submit_refresh) ];
                        timers := timers s |}).
  { rewrite LoginPage_onSubmit_eq.
    erewrite settle_page_last by reflexivity.
    cbn [resume_page]. unfold LoginPage_after_login, lift.
    cbn [world set_awaiting]. rewrite Hcases.
    unfold refresh_send, attempt, me_send, api_get, api_request, park, set_world.
    cbn [world localStorage awaiting history login_page register_page timers set_awaiting].
    now rewrite Storage_lookup_insert_eq. }
  rewrite Hfirst. cbn [awaiting history].
  split; [reflexivity|]. split; [reflexivity|].
  assert (Hsecond : settle_page (length (awaiting s)) o2
                      {| world :=
                           {| auth := auth (world s);
                              chat := chat (world s); value := value (world s);
                              localStorage :=
                                <["access_token"%string := ToString token]>
                                  (localStorage (world s));
                              pending := pending (world s) |};
                         history := history s;
                         login_page :=
                           {| LoginPage.email := LoginPage.email (login_page s);
                              LoginPage.password := LoginPage.password (login_page s);
                              LoginPage.err := JNull;
                              LoginPage.loading := true |};
                         register_page := register_page s;
                         awaiting := awaiting s
                           ++ [ ({| rq_method := GET; rq_url := "/auth/me";
                                    rq_body := JUndefined;
                                    rq_bearer := Some (ToString token) |},
                                 K_submit_refresh) ];
                         timers := timers s |}
                    = {| world :=
                           {| auth := {| AuthProvider.user := refreshed_user o2;
                                         AuthProvider.loading := false |};
                              chat := chat (world s); value := value (world s);
                              localStorage :=
                                <["access_token"%string := ToString token]>
                                  (localStorage (world s));
                              pending := pending (world s) |};
                         history := replaced "/chat" (history s);
                         login_page :=
                           {| LoginPage.email := LoginPage.email (login_page s);
                              LoginPage.password := LoginPage.password (login_page s);
                              LoginPage.err := JNull;
                              LoginPage.loading := false |};
                         register_page := register_page s;
                         awaiting := awaiting s;
                         timers := timers s |}).
  { erewrite settle_page_last by reflexivity.
    cbn [resume_page]. unfold p_exec, LoginPage_after_refresh, LoginPage_try,
      p_try_finally, p_try_catch, p_bind, lift, refresh_then, try_finally, try_catch, bind.
    cbn [world set_awaiting]. rewrite me_then_result.
    unfold refreshed_user.
    destruct o2 as [r2 | e2]; [destruct (GetV r2 "data")|]; reflexivity. }
  rewrite Hsecond. split; [reflexivity|].
  unfold ProtectedRoute. cbn [world auth AuthProvider.loading AuthProvider.user].
  now destruct (truthy (refreshed_user o2)).
Qed.

Lemma successful_login_always_navigates_to_chat_witness :
  fst (login_then (Fulfilled login_ok) (world login_typed))
  = Ok (JObj [("access_token"%string, JStr (lit "tok-1"));
              ("token_type"%string, JStr (lit "bearer"))])
  /\ history
       (settle_page (length (awaiting login_typed))
                    (Rejected (Error (lit "Network Error")))
          (settle_page (length (awaiting login_typed)) (Fulfilled login_ok)
                       (LoginPage_onSubmit login_typed)))
     = ["/chat"%string].
Proof.
  split; [reflexivity|].
  destruct (successful_login_always_navigates_to_chat unit tt login_typed login_ok
              (JObj [("access_token"%string, JStr (lit "tok-1"));
                     ("token_type"%string, JStr (lit "bearer"))])
              (Rejected (Error (lit "Network Error"))) eq_refl)
    as (token & _ & _ & _ & Hfinal & _).
  rewrite Hfinal. reflexivity.
Defined.

(** X16.  The login page probes the session when it mounts: if [me()]
    returns, whatever it returns, the current history entry is replaced
    by [/chat]; if [me()] throws, the failure is swallowed and the page
    stays as mounted.  Nothing else changes either way. *)
Theorem login_page_probe_skips_to_chat (s : Site) (o : Outcome) :
  (forall u : JsVal,
      fst (me_then o (world s)) = Ok u ->
      settle_page (length (awaiting s)) o (LoginPage_mount s)
      = set_history (replaced "/chat" (history s)) (set_login_page LoginPage.init s))
  /\ (forall e : JsVal,
         fst (me_then o (world s)) = Thrown e ->
         settle_page (length (awaiting s)) o (LoginPage_mount s)
         = set_login_page LoginPage.init s).
Proof.
  assert (Hmount : LoginPage_mount s
                   = set_awaiting (awaiting s ++ [(me_request (world s), K_login_probe)])
                                  (set_login_page LoginPage.init s)).
  { destruct s as [w h l r a t]. destruct w. reflexivity. }
  rewrite Hmount.
  erewrite settle_page_last by reflexivity.
  cbn [resume_page]. unfold p_exec, LoginPage_probe_then, p_try_catch, p_bind, lift.
  cbn [world set_awaiting set_login_page]. rewrite me_then_result. cbn [fst].
  split.
  - intros u Hu. rewrite Hu. destruct s as [w h l r a t]. destruct w. reflexivity.
  - intros e He. rewrite He. destruct s as [w h l r a t]. destruct w. reflexivity.
Qed.

Lemma login_page_probe_skips_to_chat_witness :
  fst (me_then (Fulfilled (JObj [("data"%string, profile_u)]))
               (world (Site_load "/login" ∅)))
  = Ok profile_u
  /\ history
       (settle_page (length (awaiting (Site_load "/login" ∅)))
                    (Fulfilled (JObj [("data"%string, profile_u)]))
                    (LoginPage_mount (Site_load "/login" ∅)))
     = ["/chat"%string].
Proof.
  split; [reflexivity|].
  rewrite (proj1 (login_page_probe_skips_to_chat (Site_load "/login" ∅)
                    (Fulfilled (JObj [("data"%string, profile_u)])))
                 profile_u eq_refl).
  reflexivity.
Defined.

(* ===================================================================== *)
(** * The registration page                                               *)
(* ===================================================================== *)

(** What [onSubmit] leaves behind at its [await]. *)
Lemma RegisterPage_onSubmit_eq (s : Site) :
  RegisterPage_onSubmit s
  = {| world := world s; history := history s;
       login_page := login_page s;
       register_page :=
         {| RegisterPage.form := RegisterPage.form (register_page s);
            RegisterPage.err := JNull;
            RegisterPage.ok := false |};
       awaiting := awaiting s
         ++ [ ({| rq_method := POST; rq_url := "/auth/register";
                  rq_body := JObj (RegisterPage.form (register_page s));
                  rq_bearer := localStorage (world s) !! "access_token"%string |},
               K_register_submit) ];
       timers := timers s |}.
Proof. destruct s as [w h l r a t]. destruct w. reflexivity. Qed.

Lemma RegisterPage_type_shape (keys : list (RegisterInput * JsString))
      (s : Site) (a b c : JsString) :
  RegisterPage.form (register_page s)
  = [("email"%string, JStr a); ("name"%string, JStr b);
     ("password"%string, JStr c); ("role"%string, JStr (lit "user"))] ->
  RegisterPage.form (register_page (RegisterPage_type keys s))
  = [("email"%string,
      JStr (fold_left (fun acc kv => if RegisterInput_eqb In_email (fst kv)
                                     then snd kv else acc) keys a));
     ("name"%string,
      JStr (fold_left (fun acc kv => if RegisterInput_eqb In_name (fst kv)
                                     then snd kv else acc) keys b));
     ("password"%string,
      JStr (fold_left (fun acc kv => if RegisterInput_eqb In_password (fst kv)
                                     then snd kv else acc) keys c));
     ("role"%string, JStr (lit "user"))]
  /\ RegisterPage.err (register_page (RegisterPage_type keys s))
     = RegisterPage.err (register_page s)
  /\ RegisterPage.ok (register_page (RegisterPage_type keys s))
     = RegisterPage.ok (register_page s)
  /\ awaiting (RegisterPage_type keys s) = awaiting s
  /\ world (RegisterPage_type keys s) = world s.
Proof.
  revert s a b c. induction keys as [|[i v] keys IH]; intros s a b c Hs.
  - cbn. now rewrite Hs.
  - unfold RegisterPage_type in *. cbn [fold_left fst snd].
    set (s1 := p_exec (handleChange (input_name i) v) s).
    assert (Hs1 : RegisterPage.form (register_page s1)
                  = [("email"%string,
                      JStr (if RegisterInput_eqb In_email i then v else a));
                     ("name"%string,
                      JStr (if RegisterInput_eqb In_name i then v else b));
                     ("password"%string,
                      JStr (if RegisterInput_eqb In_password i then v else c));
                     ("role"%string, JStr (lit "user"))]
                  /\ RegisterPage.err (register_page s1) = RegisterPage.err (register_page s)
                  /\ RegisterPage.ok (register_page s1) = RegisterPage.ok (register_page s)
                  /\ awaiting s1 = awaiting s /\ world s1 = world s).
    { subst s1. unfold p_exec, handleChange, setForm.
      cbn [snd register_page set_register_page RegisterPage.form RegisterPage.err
           RegisterPage.ok awaiting world].
      rewrite Hs. now destruct i. }
    destruct Hs1 as (Hf & He & Ho & Ha & Hw).
    destruct (IH s1 _ _ _ Hf) as (IHf & IHe & IHo & IHa & IHw).
    rewrite IHf, IHe, IHo, IHa, IHw, He, Ho, Ha, Hw. now repeat split.
Qed.

(** X17.  However the visitor types into the three inputs of the
    registration form, each of [email], [name] and [password] holds what
    was typed into it last (the empty string if nothing was), and [role]
    stays ["user"]: the form offers no way to choose it.  The request
    [onSubmit] hands to [register] carries exactly these four fields. *)
Theorem register_form_holds_last_typed_and_role_user
        (keys : list (RegisterInput * JsString)) (s : Site) :
  RegisterPage.form (register_page (RegisterPage_type keys (RegisterPage_mount s)))
  = [("email"%string, JStr (last_typed In_email keys));
     ("name"%string, JStr (last_typed In_name keys));
     ("password"%string, JStr (last_typed In_password keys));
     ("role"%string, JStr (lit "user"))]
  /\ awaiting (RegisterPage_onSubmit (RegisterPage_type keys (RegisterPage_mount s)))
     = awaiting s
         ++ [ ({| rq_method := POST; rq_url := "/auth/register";
                  rq_body :=
                    JObj [("email"%string, JStr (last_typed In_email keys));
                          ("name"%string, JStr (last_typed In_name keys));
                          ("password"%string, JStr (last_typed In_password keys));
                          ("role"%string, JStr (lit "user"))];
                  rq_bearer := localStorage (world s) !! "access_token"%string |},
               K_register_submit) ].
Proof.
  destruct (RegisterPage_type_shape keys (RegisterPage_mount s) [] [] [] eq_refl)
    as (Hf & _ & _ & Ha & Hw).
  split; [exact Hf|].
  rewrite RegisterPage_onSubmit_eq. cbn [awaiting].
  now rewrite Hf, Ha, Hw.
Qed.

(** X18.  When [register] returns, [ok] is set, [err] stays [null], and
    one timer of 700 ms is set; nothing navigates until it fires, and
    when it fires the current history entry is replaced by [/login]. *)
Theorem successful_register_redirects_after_timer
        (s : Site) (o : Outcome) (data : JsVal) :
  fst (register_then o (world s)) = Ok data ->
  settle_page (length (awaiting s)) o (RegisterPage_onSubmit s)
  = {| world := world s;
       history := history s;
       login_page := login_page s;
       register_page := {| RegisterPage.form := RegisterPage.form (register_page s);
                           RegisterPage.err := JNull;
                           RegisterPage.ok := true |};
       awaiting := awaiting s;
       timers := timers s ++ [(700, Cb_nav "/login" true)] |}
  /\ fire_timer (length (timers s))
       (settle_page (length (awaiting s)) o (RegisterPage_onSubmit s))
     = {| world := world s;
          history := replaced "/login" (history s);
          login_page := login_page s;
          register_page := {| RegisterPage.form := RegisterPage.form (register_page s);
                              RegisterPage.err := JNull;
                              RegisterPage.ok := true |};
          awaiting := awaiting s;
          timers := timers s |}.
Proof.
  intros Hreg.
  assert (Hthen : register_then o (world s) = (Ok data, world s)).
  { unfold register_then, bind, completion in *.
    destruct o as [response | e]; cbn in *; [|discriminate].
    destruct (GetV response "data"); cbn in *; congruence. }
  assert (Hsettle : settle_page (length (awaiting s)) o (RegisterPage_onSubmit s)
                    = {| world := world s;
                         history := history s;
                         login_page := login_page s;
                         register_page :=
                           {| RegisterPage.form := RegisterPage.form (register_page s);
                              RegisterPage.err := JNull;
                              RegisterPage.ok := true |};
                         awaiting := awaiting s;
                         timers := timers s ++ [(700, Cb_nav "/login" true)] |}).
  { rewrite RegisterPage_onSubmit_eq. erewrite settle_page_last by reflexivity.
    cbn [resume_page]. unfold p_exec, RegisterPage_after_register, p_try_catch, p_bind, lift.
    cbn [world set_awaiting]. rewrite Hthen.
    destruct s as [w h l r a t]. destruct w. reflexivity. }
  rewrite Hsettle. split; [reflexivity|].
  unfold fire_timer. cbn [timers].
  rewrite list_lookup_middle by reflexivity.
  now rewrite delete_middle, app_nil_r.
Qed.

Lemma successful_register_redirects_after_timer_witness :
  fst (register_then (Fulfilled (JObj [("data"%string, profile_u)])) (world register_typed))
  = Ok profile_u
  /\ history
       (fire_timer (length (timers register_typed))
          (settle_page (length (awaiting register_typed))
                       (Fulfilled (JObj [("data"%string, profile_u)]))
                       (RegisterPage_onSubmit register_typed)))
     = ["/login"%string].
Proof.
  split; [reflexivity|].
  rewrite (proj2 (successful_register_redirects_after_timer register_typed
                    (Fulfilled (JObj [("data"%string, profile_u)])) profile_u eq_refl)).
  reflexivity.
Defined.

(** X19.  When [register] throws, [err] is the backend's [detail], or
    ["Register failed"] when the error carries none; [ok] stays [false],
    no timer is set and nothing navigates: the form, as typed, is all
    that is left to resubmit. *)
Theorem failed_register_reports_detail (s : Site) (o : Outcome) (e : JsVal) :
  fst (register_then o (world s)) = Thrown e ->
  settle_page (length (awaiting s)) o (RegisterPage_onSubmit s)
  = set_register_page
      {| RegisterPage.form := RegisterPage.form (register_page s);
         RegisterPage.err := nullish_or (detail_of e) (JStr (lit "Register failed"));
         RegisterPage.ok := false |} s.
Proof.
  intros Hreg.
  assert (Hthen : register_then o (world s) = (Thrown e, world s)).
  { unfold register_then, bind, completion in *.
    destruct o as [response | e0]; cbn in *; [|congruence].
    destruct (GetV response "data"); cbn in *; congruence. }
  rewrite RegisterPage_onSubmit_eq. erewrite settle_page_last by reflexivity.
  cbn [resume_page]. unfold p_exec, RegisterPage_after_register, p_try_catch, p_bind, lift.
  cbn [world set_awaiting]. rewrite Hthen.
  destruct s as [w h l r a t]. destruct w. reflexivity.
Qed.

Lemma failed_register_reports_detail_witness :
  fst (register_then (Rejected (Error (lit "Network Error"))) (world register_typed))
  = Thrown (Error (lit "Network Error"))
  /\ RegisterPage.err
       (register_page
          (settle_page (length (awaiting register_typed))
                       (Rejected (Error (lit "Network Error")))
                       (RegisterPage_onSubmit register_typed)))
     = JStr (lit "Register failed").
Proof.
  split; [reflexivity|].
  rewrite (failed_register_reports_detail register_typed
             (Rejected (Error (lit "Network Error")))
             (Error (lit "Network Error")) eq_refl).
  reflexivity.
Defined.

(* ===================================================================== *)
(** * The navigation bar and the chat view's probe                        *)
(* ===================================================================== *)

(** X20.  [onLogout] removes the token and replaces the current history
    entry by [/login], and that is all: the session still holds the
    user, so the Logout button and the guard's verdict are what they
    were until the next [refresh()], and the stored conversation
    identifier is kept. *)
Theorem onLogout_keeps_session_user (C : Type) (children : C) (s : Site) :
  p_exec onLogout s
  = {| world := {| auth := auth (world s); chat := chat (world s);
                   value := value (world s);
                   localStorage := delete "access_token"%string (localStorage (world s));
                   pending := pending (world s) |};
       history := replaced "/login" (history s);
       login_page := login_page s; register_page := register_page s;
       awaiting := awaiting s; timers := timers s |}
  /\ Navbar_shows_logout (p_exec onLogout s) = Navbar_shows_logout s
  /\ ProtectedRoute children (auth (world (p_exec onLogout s)))
     = ProtectedRoute children (auth (world s))
  /\ localStorage (world (p_exec onLogout s)) !! "access_token" = None
  /\ localStorage (world (p_exec onLogout s)) !! "convId"
     = localStorage (world s) !! "convId".
Proof.
  assert (Heq : p_exec onLogout s
                = {| world := {| auth := auth (world s); chat := chat (world s);
                                 value := value (world s);
                                 localStorage :=
                                   delete "access_token"%string (localStorage (world s));
                                 pending := pending (world s) |};
                     history := replaced "/login" (history s);
                     login_page := login_page s; register_page := register_page s;
                     awaiting := awaiting s; timers := timers s |})
    by reflexivity.
  rewrite Heq. split; [reflexivity|]. split; [reflexivity|]. split; [reflexivity|].
  cbn [world localStorage]. split.
  - apply lookup_delete_eq.
  - now apply lookup_delete_ne.
Qed.

(** X21.  The chat view probes the session when it mounts.  If [me()]
    returns, the probe changes nothing.  If [me()] throws, the tab is
    sent to [/login] by a full load: a new history entry is pushed, the
    application starts afresh (session loading, its identity check in
    flight, what the pages awaited and their timers dropped), and the
    storage, the token and the conversation identifier included, is
    exactly what it was. *)
Theorem chat_probe_failure_reloads_at_login (s : Site) (o : Outcome) :
  (forall u : JsVal,
      fst (me_then o (world s)) = Ok u ->
      settle_page (length (awaiting s)) o (ChatPage_open s)
      = set_world (exec ChatPage_mount (world s)) s)
  /\ (forall e : JsVal,
         fst (me_then o (world s)) = Thrown e ->
         settle_page (length (awaiting s)) o (ChatPage_open s)
         = Site_load_at ("/login"%string :: history s) (localStorage (world s))).
Proof.
  assert (Hopen : ChatPage_open s
                  = set_awaiting
                      (awaiting s
                         ++ [(me_request (exec ChatPage_mount (world s)), K_chat_probe)])
                      (set_world (exec ChatPage_mount (world s)) s)).
  { unfold ChatPage_open, p_exec, lift, me_send, api_get, api_request, park, exec.
    destruct (ChatPage_mount (world s)) as [r w1]. reflexivity. }
  rewrite Hopen.
  erewrite settle_page_last by reflexivity.
  cbn [resume_page]. unfold ChatPage_probe_then, lift.
  cbn [world set_awaiting set_world]. rewrite !me_then_result. cbn [fst].
  split.
  - intros u Hu. rewrite Hu. reflexivity.
  - intros e He. rewrite He.
    unfold location_assign, Site_load_at, set_world, reload.
    cbn [world history].
    now destruct (ChatPage_mount_frame (world s)) as (-> & _).
Qed.

Lemma chat_probe_failure_reloads_at_login_witness :
  fst (me_then (Rejected (Error (lit "Request failed with status code 401")))
               (world (Site_load "/chat" ∅)))
  = Thrown (Error (lit "Request failed with status code 401"))
  /\ history
       (settle_page (length (awaiting (Site_load "/chat" ∅)))
                    (Rejected (Error (lit "Request failed with status code 401")))
                    (ChatPage_open (Site_load "/chat" ∅)))
     = ["/login"%string; "/chat"%string].
Proof.
  split; [reflexivity|].
  rewrite (proj2 (chat_probe_failure_reloads_at_login (Site_load "/chat" ∅)
                    (Rejected (Error (lit "Request failed with status code 401"))))
                 (Error (lit "Request failed with status code 401")) eq_refl).
  reflexivity.
Defined.
